(** * listmonk: login handshake and user permission expansion

    A shallow embedding of [internal/core/users.go], of the login handlers
    ([handleLoginPage], [handleOIDCLogin], [handleOIDCFinish],
    [renderLoginPage], [doLogin]) and of [utils.GenerateRandomString].

    Go strings are byte strings ([string]); Go [int] values are [Z];
    a Go [error] that may be [nil] is an [option error]; Go maps used as
    sets or dictionaries are [gset] and [gmap]. *)

From Stdlib Require Import ZArith List.
From Stdlib.Strings Require Import Ascii String Byte.
From stdpp Require Import base option list gmap strings.

Local Open Scope Z_scope.
Local Open Scope string_scope.

(** ** Go errors *)

(** The [error] values that flow through the code: [sql.ErrNoRows], which
    [LoginUser] tells apart from every other failure, an [*echo.HTTPError]
    with a status code and a string message, and any other error, of which
    only the [Error()] text is observed. *)
Inductive error : Type :=
| ErrNoRows
| HTTPError (code : Z) (message : string)
| ErrorString (text : string).

Definition StatusOK : Z := 200.
Definition StatusFound : Z := 302.
Definition StatusBadRequest : Z := 400.
Definition StatusUnauthorized : Z := 401.
Definition StatusForbidden : Z := 403.
Definition StatusInternalServerError : Z := 500.

(** ** utils.GenerateRandomString *)

Module Utils.

Definition dictionary : string :=
  "0123456789ABCDEFGHIJKLMNOPQRSTUVWXYZabcdefghijklmnopqrstuvwxyz".

(** [crypto/rand.Read(bytes)] either fails or overwrites the whole buffer in
    place.  The source is modelled by what it does to a buffer of [n] bytes:
    an error, or the byte it writes at each index. *)
Definition randSource : Type := nat → (nat → byte) + error.

(** [dictionary[v % byte(len(dictionary))]], on an unsigned 8-bit [v]. *)
Definition dictAt (v : byte) : ascii :=
  match String.get (N.to_nat (Byte.to_N v mod N.of_nat (String.length dictionary)))
                   dictionary with
  | Some c => c
  | None => Ascii.zero
  end.

(** [make([]byte, n)] read as the list of its indices. *)
Definition indices (n : nat) : list nat := seq 0 n.

Definition GenerateRandomString (rand : randSource) (n : nat)
  : string * option error :=
  match rand n with
  | inr err => ("", Some err)
  | inl filled =>
      let bytes := List.map filled (indices n) in
      (string_of_list_ascii (List.map dictAt bytes), None)
  end.

(** Membership of a character in a string, as a boolean. *)
Fixpoint inString (c : ascii) (s : string) : bool :=
  match s with
  | EmptyString => false
  | String d rest => if Ascii.eqb c d then true else inString c rest
  end.

Definition allInDictionary (s : string) : bool :=
  forallb (λ c, inString c dictionary) (list_ascii_of_string s).

End Utils.

(** ** Data model ([null.String], [models.ListPermission], [models.User]) *)

(** [null.String{String, Valid}]. *)
Record nullString : Type := mkNullString {
  nsString : string;
  nsValid : bool
}.

Definition nullStringZero : nullString := mkNullString "" false.

(** Modelled from the spec: [models.ListPermission] is declared outside the
    files at hand; a per-resource grant names a resource identifier and the
    permission strings scoped to it, which are the two fields [getUsers]
    reads ([p.ID], [p.Permissions]). *)
Record ListPermission : Type := mkListPermission {
  lpID : Z;
  lpPermissions : list string
}.

(** The anonymous struct behind [u.Role]. *)
Record userRole : Type := mkUserRole {
  roleID : Z;
  roleName : string;
  rolePermissions : list string;
  roleLists : list ListPermission
}.

Definition userRoleZero : userRole := mkUserRole 0 "" [] [].

(** Modelled from the spec: [models.User] is declared outside the files at
    hand.  The fields are the ones the code reads or writes; [HasPassword],
    [Role], [PermissionsMap] and [ListPermissionsMap] are the computed ones.
    A Go [map[string]struct{}] is a [gset string], a
    [map[int]map[string]struct{}] a [gmap Z (gset string)]; a nil map reads
    like an empty one.  [ListsPermsRaw] is [None] when it is nil. *)
Record User : Type := mkUser {
  ID : Z;
  Username : string;
  Password : nullString;
  PasswordLogin : bool;
  Email : nullString;
  Name : string;
  UserType : string;
  Status : string;
  RoleID : Z;
  RoleName : string;
  RolePerms : list string;
  ListsPermsRaw : option string;
  Role : userRole;
  PermissionsMap : gset string;
  ListPermissionsMap : gmap Z (gset string);
  HasPassword : bool
}.

(** [models.User{}]. *)
Definition userZero : User :=
  mkUser 0 "" nullStringZero false nullStringZero "" "" "" 0 "" [] None
         userRoleZero ∅ ∅ false.

(** Modelled from the spec: the columns a user query yields.  The computed
    fields of [models.User] are not persisted, so a row carries none of
    them. *)
Record userRow : Type := mkUserRow {
  rowID : Z;
  rowUsername : string;
  rowPassword : nullString;
  rowPasswordLogin : bool;
  rowEmail : nullString;
  rowName : string;
  rowType : string;
  rowStatus : string;
  rowRoleID : Z;
  rowRoleName : string;
  rowRolePerms : list string;
  rowListsPermsRaw : option string
}.

(** Scanning a row into a fresh [models.User]: the computed fields keep
    their zero values. *)
Definition scanUser (r : userRow) : User :=
  mkUser (rowID r) (rowUsername r) (rowPassword r) (rowPasswordLogin r)
         (rowEmail r) (rowName r) (rowType r) (rowStatus r) (rowRoleID r)
         (rowRoleName r) (rowRolePerms r) (rowListsPermsRaw r)
         userRoleZero ∅ ∅ false.

(** Modelled from the spec: [models.UserTypeAPI], the machine-token user
    type, is declared outside the files at hand. *)
Definition UserTypeAPI : string := "api".

(** ** Effects: clock, requests to collaborators, cookies, log *)

Record Cookie : Type := mkCookie {
  cookieName : string;
  cookieValue : string;
  cookieHttpOnly : bool;
  cookiePath : string;
  cookieSameSite : string
}.

Definition SameSiteLaxMode : string := "Lax".

Inductive logArg : Type :=
| ArgInt (n : Z)
| ArgErr (e : error).

(** What a handler does to the outside, in order. *)
Inductive event : Type :=
| EvLoginUser (username password : string)
| EvGetUsers (id : Z) (username email : string)
| EvUpdateUserLogin (id : Z) (avatar : string)
| EvExchangeOIDCToken (code nonce : string)
| EvSetSession (u : User) (oidcToken : string)
| EvSetCookie (c : Cookie)
| EvRandRead (n : nat)
| EvSleep (d : Z)
| EvLogPrintf (format : string) (args : list logArg).

(** The clock counts nanoseconds, as [time.Duration] does. *)
Record world : Type := mkWorld {
  now : Z;
  trace : list event
}.

Definition M (A : Type) : Type := world → A * world.

Definition ret {A} (a : A) : M A := λ w, (a, w).

Definition bind {A B} (m : M A) (k : A → M B) : M B :=
  λ w, let (a, w') := m w in k a w'.

Notation "'let*' x := m 'in' k" := (bind m (λ x, k))
  (at level 10, x name, m at level 100, k at level 200).
Notation "'let*' ( x , y ) := m 'in' k" :=
  (bind m (λ p, let '(x, y) := p in k))
  (at level 10, x name, y name, m at level 100, k at level 200).
Notation "'do*' m 'in' k" := (bind m (λ _, k))
  (at level 10, m at level 100, k at level 200).

Definition emit (e : event) : M unit :=
  λ w, (tt, mkWorld (now w) (trace w ++ [e])).

(** The time taken by an outside call. *)
Definition elapse (ns : N) : M unit :=
  λ w, (tt, mkWorld (now w + Z.of_N ns) (trace w)).

(** [time.Now()]. *)
Definition timeNow : M Z := λ w, (now w, w).

(** [time.Sleep(d)]: returns at once when [d] is not positive. *)
Definition timeSleep (d : Z) : M unit :=
  λ w, (tt, mkWorld (now w + Z.max 0 d) (trace w ++ [EvSleep d])).

(** [Duration.Milliseconds()]: integer division of the nanoseconds,
    truncated towards zero. *)
Definition Milliseconds (d : Z) : Z := Z.quot d 1000000.

(** ** The application and its collaborators *)

(** The verified identity claims returned by the provider. *)
Record oidcClaims : Type := mkClaims {
  claimEmail : string;
  claimPicture : string
}.

(** A panic of the Go runtime is a result of its own. *)
Inductive outcome (A : Type) : Type :=
| Returns (a : A)
| Panics (reason : string).
Arguments Returns {A} a.
Arguments Panics {A} reason.

(** Everything the code reaches through [app] and [c] (of [Core]) that is
    not defined in the files at hand: translations, configuration, the
    prepared queries, the auth package, the standard library's decoders and
    the helpers of other packages. *)
Record App : Type := mkApp {
  (* app.i18n *)
  i18n_T : string → string;
  i18n_Ts : string → list string → string;
  (* app.constants.Security.OIDC *)
  oidcEnabled : bool;
  oidcProviderURL : string;
  (* c.q *)
  q_GetUsers : Z → string → string → list userRow + error;
  q_LoginUser : string → string → userRow + error;
  q_LoginUser_took : string → string → N;
  q_UpdateUserLogin : Z → string → option error;
  (* app.auth *)
  auth_GetOIDCAuthURL : string → string → string;
  auth_ExchangeOIDCToken : string → string → (string * oidcClaims) + error;
  auth_SetSession : User → string → option error;
  (* crypto/rand *)
  rand_Read : Utils.randSource;
  (* encoding/json: the slice left in the target, and the error *)
  json_Unmarshal : string → list ListPermission * option error;
  (* net/url: the host name of a URL that parses *)
  url_Hostname : string → string + error;
  (* strings *)
  strings_TrimSpace : string → string;
  strings_ToLower : string → string;
  (* helpers and constants of other files *)
  pqErrMsg : error → string;
  SanitizeURI : string → string;
  uriAdmin : string;
  stdInputMaxLen : Z
}.

(** ** internal/core/users.go *)

Module Core.
Section WithApp.
Variable app : App.

Definition errorFetchingUsers (err : error) : error :=
  HTTPError StatusInternalServerError
    (i18n_Ts app "globals.messages.errorFetching"
       ["name"; "{globals.terms.users}"; "error"; pqErrMsg app err]).

Definition errorUpdatingUser (err : error) : error :=
  HTTPError StatusInternalServerError
    (i18n_Ts app "globals.messages.errorUpdating"
       ["name"; "{globals.terms.user}"; "error"; pqErrMsg app err]).

(** The lookup set of a permission list: [m[p] = struct{}{}] for each [p]. *)
Definition permissionSet (perms : list string) : gset string :=
  fold_left (λ m p, {[p]} ∪ m) perms ∅.

(** One round of the loop over [listPerms]: a fresh set is stored under
    [p.ID], then every permission is added to the set stored there. *)
Definition addListPermission (m : gmap Z (gset string)) (p : ListPermission)
  : gmap Z (gset string) :=
  fold_left (λ m perm, alter (λ s, {[perm]} ∪ s) (lpID p) m)
            (lpPermissions p)
            (<[lpID p := ∅]> m).

Definition listPermissionsMap (listPerms : list ListPermission)
  : gmap Z (gset string) :=
  fold_left addListPermission listPerms ∅.

(** Unmarshalling the raw list permissions of the user with the given id:
    an error is logged and [listPerms] is used as the decoder left it. *)
Definition unmarshalListPerms (id : Z) (raw : option string)
  : M (list ListPermission) :=
  match raw with
  | None => ret []
  | Some data =>
      let (listPerms, err) := json_Unmarshal app data in
      match err with
      | Some e =>
          do* emit (EvLogPrintf
                      "error unmarshalling list permissions for role %d: %v"
                      [ArgInt id; ArgErr e]) in
          ret listPerms
      | None => ret listPerms
      end
  end.

(** The body of the loop of [getUsers]. *)
Definition expandUser (u : User) : M User :=
  let hasPassword := negb (String.eqb (nsString (Password u)) "") in
  let isAPI := String.eqb (UserType u) UserTypeAPI in
  let* listPerms := unmarshalListPerms (ID u) (ListsPermsRaw u) in
  ret {| ID := ID u;
         Username := Username u;
         Password := Password u;
         PasswordLogin := if hasPassword then true else PasswordLogin u;
         Email := if isAPI then nullStringZero else Email u;
         Name := Name u;
         UserType := UserType u;
         Status := Status u;
         RoleID := 0;
         RoleName := RoleName u;
         RolePerms := RolePerms u;
         ListsPermsRaw := ListsPermsRaw u;
         Role := {| roleID := RoleID u;
                    roleName := RoleName u;
                    rolePermissions := RolePerms u;
                    roleLists := listPerms |};
         PermissionsMap := permissionSet (RolePerms u);
         ListPermissionsMap := listPermissionsMap listPerms;
         HasPassword := if hasPassword then true else HasPassword u |}.

(** [for n, u := range out { ...; out[n] = u }]. *)
Fixpoint rangeUsers (out : list User) : M (list User) :=
  match out with
  | [] => ret []
  | u :: rest =>
      let* u' := expandUser u in
      let* rest' := rangeUsers rest in
      ret (u' :: rest')
  end.

Definition getUsers (id : Z) (username email : string)
  : M (list User * option error) :=
  do* emit (EvGetUsers id username email) in
  match q_GetUsers app id username email with
  | inr err => ret ([], Some (errorFetchingUsers err))
  | inl rows =>
      let out := List.map scanUser rows in
      if (length out =? 0)%nat
      then ret ([], Some (ErrorString "user not found"))
      else
        let* out' := rangeUsers out in
        ret (out', None)
  end.

Definition GetUsers : M (list User * option error) := getUsers 0 "" "".

(** [out[0]] panics on an empty slice. *)
Definition GetUser (id : Z) (username email : string)
  : M (outcome (User * option error)) :=
  let* (out, err) := getUsers id username (strings_ToLower app email) in
  match err with
  | Some e => ret (Returns (userZero, Some (errorFetchingUsers e)))
  | None =>
      match out with
      | u :: _ => ret (Returns (u, None))
      | [] => ret (Panics "index out of range [0] with length 0")
      end
  end.

Definition UpdateUserLogin (id : Z) (avatar : string) : M (option error) :=
  do* emit (EvUpdateUserLogin id avatar) in
  match q_UpdateUserLogin app id avatar with
  | Some err => ret (Some (errorUpdatingUser err))
  | None => ret None
  end.

Definition LoginUser (username password : string) : M (User * option error) :=
  do* emit (EvLoginUser username password) in
  do* elapse (q_LoginUser_took app username password) in
  match q_LoginUser app username password with
  | inr ErrNoRows =>
      ret (userZero, Some (HTTPError StatusForbidden (i18n_T app "users.invalidLogin")))
  | inr err => ret (userZero, Some (errorFetchingUsers err))
  | inl row => ret (scanUser row, None)
  end.

End WithApp.
End Core.

(** ** The login handlers *)

(** What the handlers read from the [echo.Context]: the request method, the
    form values and query parameters (the empty string when absent) and the
    value of a cookie ([None] when [c.Cookie] returns an error). *)
Record Context : Type := mkContext {
  Method : string;
  FormValue : string → string;
  QueryParam : string → string;
  CookieValue : string → option string
}.

Record loginTpl : Type := mkLoginTpl {
  Title : string;
  Description : string;
  NextURI : string;
  Nonce : string;
  PasswordEnabled : bool;
  OIDCProvider : string;
  OIDCProviderLogo : string;
  Error : string
}.

(** How a handler ends: with a redirect, with a rendered template, with a
    non-nil error left to the framework's error handler, or in a panic. *)
Inductive response : Type :=
| Redirect (code : Z) (url : string)
| Render (code : Z) (name : string) (data : loginTpl)
| Failed (err : error)
| Panic (reason : string).

Definition oidcProviders : gmap string bool :=
  <["google.com" := true]>
    (<["microsoftonline.com" := true]>
       (<["auth0.com" := true]>
          (<["github.com" := true]> ∅))).

(** Modelled from the spec: [strHasLen] is defined outside the files at
    hand; it checks that the length of the string lies between the two
    bounds (username: 3..N, password: 8..N). *)
Definition strHasLen (str : string) (min max : Z) : bool :=
  ((min <=? Z.of_nat (String.length str)) && (Z.of_nat (String.length str) <=? max))%Z.

(** [strings.Split(s, sep)] for a separator of one byte. *)
Fixpoint stringsSplit (sep : ascii) (s : string) : list string :=
  match s with
  | EmptyString => [""]
  | String ch rest =>
      if Ascii.eqb ch sep then "" :: stringsSplit sep rest
      else match stringsSplit sep rest with
           | h :: t => String ch h :: t
           | [] => [String ch ""]
           end
  end.

Section Handlers.
Variable app : App.

Definition invalidRequest : error :=
  HTTPError StatusUnauthorized (i18n_T app "users.invalidRequest").

Definition invalidField (name : string) : error :=
  HTTPError StatusBadRequest
    (i18n_Ts app "globals.messages.invalidFields" ["name"; name]).

(** [utils.GenerateRandomString(n)] on the process's random source. *)
Definition generateRandomString (n : nat) : M (string * option error) :=
  do* emit (EvRandRead n) in
  ret (Utils.GenerateRandomString (rand_Read app) n).

(** [auth.SetSession(user, token, c)]. *)
Definition setSession (user : User) (oidcToken : string) : M (option error) :=
  do* emit (EvSetSession user oidcToken) in
  ret (auth_SetSession app user oidcToken).

(** [auth.ExchangeOIDCToken(code, nonce)]. *)
Definition exchangeOIDCToken (code nonce : string)
  : M ((string * oidcClaims) + error) :=
  do* emit (EvExchangeOIDCToken code nonce) in
  ret (auth_ExchangeOIDCToken app code nonce).

(** The root domain of the configured provider and the logo shown for it. *)
Definition providerBadge : string * string :=
  if oidcEnabled app then
    match url_Hostname app (oidcProviderURL app) with
    | inl hostname =>
        let h := stringsSplit "." hostname in
        let oidcProvider :=
          if (2 <=? length h)%nat
          then nth (length h - 2) h "" ++ "." ++ nth (length h - 1) h ""
          else hostname in
        match oidcProviders !! oidcProvider with
        | Some _ => (oidcProvider, oidcProvider ++ ".png")
        | None => (oidcProvider, "oidc.png")
        end
    | inr _ => ("", "oidc.png")
    end
  else ("", "").

(** The text shown for a login error: the message of an [*echo.HTTPError],
    the [Error()] text of any other error. *)
Definition loginErrorText (loginErr : option error) : string :=
  match loginErr with
  | None => ""
  | Some (HTTPError _ message) => message
  | Some ErrNoRows => "sql: no rows in result set"
  | Some (ErrorString text) => text
  end.

Definition renderLoginPage (c : Context) (loginErr : option error) : M response :=
  let next := SanitizeURI app (FormValue c "next") in
  let next := if String.eqb next "/" then uriAdmin app else next in
  let (oidcProvider, oidcProviderLogo) := providerBadge in
  let* (nonce, err) := generateRandomString 16 in
  match err with
  | Some e =>
      do* emit (EvLogPrintf "error generating OIDC nonce: %v" [ArgErr e]) in
      ret (Failed (HTTPError StatusBadRequest
                     (i18n_T app "globals.messages.internalError")))
  | None =>
      do* emit (EvSetCookie {| cookieName := "nonce";
                               cookieValue := nonce;
                               cookieHttpOnly := true;
                               cookiePath := "/";
                               cookieSameSite := SameSiteLaxMode |}) in
      ret (Render StatusOK "admin-login"
             {| Title := i18n_T app "users.login";
                Description := "";
                NextURI := next;
                Nonce := nonce;
                PasswordEnabled := true;
                OIDCProvider := oidcProvider;
                OIDCProviderLogo := oidcProviderLogo;
                Error := loginErrorText loginErr |})
  end.

(** The nonce check of the password form is commented out in the source:
    [doLogin] reads neither the cookie nor the form's nonce. *)
Definition doLogin (c : Context) : M (option error) :=
  let username := strings_TrimSpace app (FormValue c "username") in
  let password := strings_TrimSpace app (FormValue c "password") in
  if negb (strHasLen username 3 (stdInputMaxLen app)) then
    ret (Some (invalidField "username"))
  else if negb (strHasLen password 8 (stdInputMaxLen app)) then
    ret (Some (invalidField "password"))
  else
    let* start := timeNow in
    let* (user, err) := Core.LoginUser app username password in
    match err with
    | Some e => ret (Some e)
    | None =>
        let* finish := timeNow in
        let ms := Milliseconds (finish - start) in
        do* (if (ms <? 100)%Z then timeSleep ms else ret tt) in
        setSession user ""
    end.

Definition handleLoginPage (c : Context) : M response :=
  if String.eqb (Method c) "POST" then
    let* loginErr := doLogin c in
    match loginErr with
    | None => ret (Redirect StatusFound (SanitizeURI app (FormValue c "next")))
    | Some _ => renderLoginPage c loginErr
    end
  else renderLoginPage c None.

Definition handleOIDCLogin (c : Context) : M response :=
  match CookieValue c "nonce" with
  | None => ret (Failed invalidRequest)
  | Some nonce =>
      if String.eqb nonce "" || negb (String.eqb nonce (FormValue c "nonce"))
      then ret (Failed invalidRequest)
      else
        let next := SanitizeURI app (FormValue c "next") in
        let next := if String.eqb next "/" then uriAdmin app else next in
        ret (Redirect StatusFound (auth_GetOIDCAuthURL app next nonce))
  end.

Definition handleOIDCFinish (c : Context) : M response :=
  match CookieValue c "nonce" with
  | None => renderLoginPage c (Some invalidRequest)
  | Some nonce =>
      if String.eqb nonce "" then renderLoginPage c (Some invalidRequest)
      else
        let* exchanged := exchangeOIDCToken (QueryParam c "code") nonce in
        match exchanged with
        | inr err => renderLoginPage c (Some err)
        | inl (oidcToken, claims) =>
            let* fetched := Core.GetUser app 0 "" (claimEmail claims) in
            match fetched with
            | Panics reason => ret (Panic reason)
            | Returns (_, Some err) => renderLoginPage c (Some err)
            | Returns (user, None) =>
                let* updated := Core.UpdateUserLogin app (ID user) (claimPicture claims) in
                match updated with
                | Some err => renderLoginPage c (Some err)
                | None =>
                    let* session := setSession user oidcToken in
                    match session with
                    | Some err => renderLoginPage c (Some err)
                    | None =>
                        ret (Redirect StatusFound
                               (SanitizeURI app (QueryParam c "state")))
                    end
                end
            end
        end
  end.

End Handlers.

(** ** A concrete application, for running the code *)

Module Sample.

Definition isSpace (ch : ascii) : bool :=
  let n := nat_of_ascii ch in
  ((9 <=? n) && (n <=? 13) || (n =? 32))%nat.

Fixpoint trimLeft (s : string) : string :=
  match s with
  | EmptyString => ""
  | String ch rest => if isSpace ch then trimLeft rest else s
  end.

Fixpoint trimRight (s : string) : string :=
  match s with
  | EmptyString => ""
  | String ch rest =>
      match trimRight rest with
      | EmptyString => if isSpace ch then "" else String ch ""
      | kept => String ch kept
      end
  end.

(** [strings.TrimSpace] on ASCII text. *)
Definition trimSpace (s : string) : string := trimRight (trimLeft s).

Definition lowerChar (ch : ascii) : ascii :=
  let n := nat_of_ascii ch in
  if ((65 <=? n) && (n <=? 90))%nat then ascii_of_nat (n + 32) else ch.

(** [strings.ToLower] on ASCII text. *)
Fixpoint toLower (s : string) : string :=
  match s with
  | EmptyString => ""
  | String ch rest => String (lowerChar ch) (toLower rest)
  end.

(** A same-origin relative path is kept, anything else becomes the root. *)
Definition sanitizeURI (s : string) : string :=
  match s with
  | String "/" (String "/" _) => "/"
  | String "/" _ => s
  | _ => "/"
  end.

Definition errorText (e : error) : string :=
  match e with
  | ErrNoRows => "sql: no rows in result set"
  | HTTPError _ message => message
  | ErrorString text => text
  end.

(** JSON text is written with [q] around its string literals. *)
Definition quote : ascii := ascii_of_nat 34.
Definition q (s : string) : string := String quote (s ++ String quote "").

Definition grant (id : string) (perm : string) : string :=
  "{" ++ q "id" ++ ":" ++ id ++ "," ++ q "permissions" ++ ":[" ++ q perm ++ "]}".

(** [[{"id":5,"permissions":["list:view"]}]] *)
Definition oneGrantJSON : string := "[" ++ grant "5" "list:view" ++ "]".

(** Two grants for the same list 5. *)
Definition twoGrantsSameListJSON : string :=
  "[" ++ grant "5" "list:get" ++ "," ++ grant "5" "list:manage" ++ "]".

(** The second grant gives its id as a JSON string rather than a number. *)
Definition stringIDGrantJSON : string :=
  "[" ++ grant "5" "list:get" ++ "," ++ grant (q "6") "list:manage" ++ "]".

Definition brokenJSON : string := "[{".

(** [json.Unmarshal] on the payloads above.  A payload that is not valid
    JSON is refused before anything is decoded.  A value of the wrong type
    for its field is skipped, the rest is decoded, and the first such
    mismatch is returned as the error. *)
Definition unmarshal (data : string) : list ListPermission * option error :=
  if String.eqb data oneGrantJSON then
    ([mkListPermission 5 ["list:view"]], None)
  else if String.eqb data twoGrantsSameListJSON then
    ([mkListPermission 5 ["list:get"]; mkListPermission 5 ["list:manage"]], None)
  else if String.eqb data stringIDGrantJSON then
    ([mkListPermission 5 ["list:get"]; mkListPermission 0 ["list:manage"]],
     Some (ErrorString
             "json: cannot unmarshal string into Go struct field ListPermission.id of type int"))
  else ([], Some (ErrorString "unexpected end of JSON input")).

Definition stored (id : Z) (username : string) (password : nullString)
    (email type : string) (perms : list string) (raw : option string) : userRow :=
  {| rowID := id; rowUsername := username; rowPassword := password;
     rowPasswordLogin := false; rowEmail := mkNullString email true;
     rowName := username; rowType := type; rowStatus := "enabled";
     rowRoleID := 1; rowRoleName := "Managers"; rowRolePerms := perms;
     rowListsPermsRaw := raw |}.

Definition alice : userRow :=
  stored 1 "alice" (mkNullString "$2a$10$N9qo8uLOickgx2ZMRZoMye" true)
         "alice@example.com" "user" ["users:manage"] (Some oneGrantJSON).
Definition bob : userRow :=
  stored 2 "bob" nullStringZero "bob@example.com" "user" []
         (Some twoGrantsSameListJSON).
Definition carol : userRow :=
  stored 3 "carol" nullStringZero "carol@example.com" "user" []
         (Some stringIDGrantJSON).
Definition bot : userRow :=
  stored 4 "bot" (mkNullString "tok3nT0K3Ntok3nT0K3Ntok3nT0K3N00" true)
         "bot@api" UserTypeAPI ["subscribers:get"] None.
Definition dave : userRow :=
  stored 5 "dave" nullStringZero "dave@example.com" "user" ["lists:get_all"]
         (Some brokenJSON).

Definition users : list userRow := [alice; bob; carol; bot; dave].

Definition matches (id : Z) (username email : string) (r : userRow) : bool :=
  (id =? 0)%Z && String.eqb username "" && String.eqb email ""
  || (rowID r =? id)%Z
  || negb (String.eqb username "") && String.eqb (rowUsername r) username
  || negb (String.eqb email "") && String.eqb (toLower (nsString (rowEmail r))) email.

Definition getUsersQuery (id : Z) (username email : string) : list userRow + error :=
  inl (List.filter (matches id username email) users).

Definition loginQuery (username password : string) : userRow + error :=
  if String.eqb username "alice" && String.eqb password "correct horse"
  then inl alice else inr ErrNoRows.

Definition exchange (code nonce : string) : (string * oidcClaims) + error :=
  if String.eqb code "good-code"
  then inl ("id-token", mkClaims "Alice@Example.com" "https://img.example.com/a.png")
  else inr (HTTPError StatusUnauthorized "error exchanging OIDC token").

Definition randomBytes : Utils.randSource :=
  λ _, inl (λ k, default Byte.x00 (Byte.of_N (N.of_nat (k * 37 + 11) mod 256))).

Definition noEntropy : Utils.randSource :=
  λ _, inr (ErrorString "entropy source unavailable").

Definition appWith (rand : Utils.randSource) : App :=
  {| i18n_T := λ key, key;
     i18n_Ts := λ key params, key ++ ": " ++ String.concat ", " params;
     oidcEnabled := true;
     oidcProviderURL := "https://accounts.google.com";
     q_GetUsers := getUsersQuery;
     q_LoginUser := loginQuery;
     q_LoginUser_took := λ _ _, 5000000%N;
     q_UpdateUserLogin := λ _ _, None;
     auth_GetOIDCAuthURL := λ next nonce,
       "https://accounts.google.com/o/oauth2/auth?state=" ++ next ++ "&nonce=" ++ nonce;
     auth_ExchangeOIDCToken := exchange;
     auth_SetSession := λ _ _, None;
     rand_Read := rand;
     json_Unmarshal := unmarshal;
     url_Hostname := λ _, inl "accounts.google.com";
     strings_TrimSpace := trimSpace;
     strings_ToLower := toLower;
     pqErrMsg := errorText;
     SanitizeURI := sanitizeURI;
     uriAdmin := "/admin";
     stdInputMaxLen := 2000 |}.

Definition app : App := appWith randomBytes.

(** The same application on a host whose random source fails. *)
Definition appNoEntropy : App := appWith noEntropy.

Definition lookupIn (fields : list (string * string)) (name : string) : string :=
  match List.find (λ kv, String.eqb (fst kv) name) fields with
  | Some kv => snd kv
  | None => ""
  end.

Definition request (method : string) (form query : list (string * string))
    (nonceCookie : option string) : Context :=
  {| Method := method;
     FormValue := lookupIn form;
     QueryParam := lookupIn query;
     CookieValue := λ name, if String.eqb name "nonce" then nonceCookie else None |}.

Definition start : world := mkWorld 0 [].

End Sample.

(** ** Reading the results of a run *)

(** The loop body of [getUsers] does not read the world: its result and the
    lines it logs are those of a run from the empty world. *)
Definition expanded (app : App) (u : User) : User :=
  fst (Core.expandUser app u (mkWorld 0 [])).

Definition expandLog (app : App) (u : User) : list event :=
  trace (snd (Core.expandUser app u (mkWorld 0 []))).

(** The grants in [listPerms] for a row, after the unmarshalling step. *)
Definition grantsOf (app : App) (r : userRow) : list ListPermission :=
  match rowListsPermsRaw r with
  | None => []
  | Some data => fst (json_Unmarshal app data)
  end.

(** The CSRF binding of a federated-login request: the nonce cookie is
    present, not empty and equal to the form's nonce. *)
Definition nonceBound (c : Context) : Prop :=
  ∃ nonce, CookieValue c "nonce" = Some nonce ∧ nonce ≠ "" ∧ nonce = FormValue c "nonce".

(** Digits, upper-case and lower-case ASCII letters. *)
Definition isAlnum (ch : ascii) : bool :=
  let n := nat_of_ascii ch in
  ((48 <=? n) && (n <=? 57) || (65 <=? n) && (n <=? 90) || (97 <=? n) && (n <=? 122))%nat.

(** The credentials [doLogin] checks and submits: the trimmed form values. *)
Definition submittedUsername (app : App) (c : Context) : string :=
  strings_TrimSpace app (FormValue c "username").

Definition submittedPassword (app : App) (c : Context) : string :=
  strings_TrimSpace app (FormValue c "password").

(** What [GetUser] returns for the user with a given email; the world it
    runs in has no part in it. *)
Definition fetchedByEmail (app : App) (email : string) : outcome (User * option error) :=
  fst (Core.GetUser app 0 "" email (mkWorld 0 [])).

(** The ways through the completion of a federated login: the step that
    fails, with its error, or [None] when every step succeeds. *)
Inductive finishPath (app : App) (c : Context) : option error → Prop :=
| FinishNoNonce :
    CookieValue c "nonce" = None ∨ CookieValue c "nonce" = Some "" →
    finishPath app c (Some (invalidRequest app))
| FinishExchangeFailed (nonce : string) (err : error) :
    CookieValue c "nonce" = Some nonce → nonce ≠ "" →
    auth_ExchangeOIDCToken app (QueryParam c "code") nonce = inr err →
    finishPath app c (Some err)
| FinishUserNotFound (nonce token : string) (claims : oidcClaims)
      (user : User) (err : error) :
    CookieValue c "nonce" = Some nonce → nonce ≠ "" →
    auth_ExchangeOIDCToken app (QueryParam c "code") nonce = inl (token, claims) →
    fetchedByEmail app (claimEmail claims) = Returns (user, Some err) →
    finishPath app c (Some err)
| FinishUpdateFailed (nonce token : string) (claims : oidcClaims)
      (user : User) (err : error) :
    CookieValue c "nonce" = Some nonce → nonce ≠ "" →
    auth_ExchangeOIDCToken app (QueryParam c "code") nonce = inl (token, claims) →
    fetchedByEmail app (claimEmail claims) = Returns (user, None) →
    q_UpdateUserLogin app (ID user) (claimPicture claims) = Some err →
    finishPath app c (Some (Core.errorUpdatingUser app err))
| FinishSessionFailed (nonce token : string) (claims : oidcClaims)
      (user : User) (err : error) :
    CookieValue c "nonce" = Some nonce → nonce ≠ "" →
    auth_ExchangeOIDCToken app (QueryParam c "code") nonce = inl (token, claims) →
    fetchedByEmail app (claimEmail claims) = Returns (user, None) →
    q_UpdateUserLogin app (ID user) (claimPicture claims) = None →
    auth_SetSession app user token = Some err →
    finishPath app c (Some err)
| FinishSuccess (nonce token : string) (claims : oidcClaims) (user : User) :
    CookieValue c "nonce" = Some nonce → nonce ≠ "" →
    auth_ExchangeOIDCToken app (QueryParam c "code") nonce = inl (token, claims) →
    fetchedByEmail app (claimEmail claims) = Returns (user, None) →
    q_UpdateUserLogin app (ID user) (claimPicture claims) = None →
    auth_SetSession app user token = None →
    finishPath app c None.

(** Requests used in the examples. *)
Module Requests.

Definition wrongPassword : Context :=
  Sample.request "POST"
    [("username", "alice"); ("password", "wrong password"); ("nonce", "abc")]
    [] (Some "abc").

Definition forgedNonce : Context :=
  Sample.request "POST"
    [("username", " alice "); ("password", "correct horse"); ("nonce", "forged")]
    [] (Some "abc").

Definition shortUsername : Context :=
  Sample.request "POST"
    [("username", "ab"); ("password", "correct horse"); ("nonce", "abc")]
    [] (Some "abc").

Definition emptyCookie : Context :=
  Sample.request "POST" [("next", "/lists"); ("nonce", "abc")] [] (Some "").

Definition boundNonce : Context :=
  Sample.request "POST" [("next", "/lists"); ("nonce", "abc")] [] (Some "abc").

Definition callbackWithoutCookie : Context :=
  Sample.request "GET" [] [("code", "good-code"); ("state", "/lists")] None.

Definition callback (code : string) : Context :=
  Sample.request "GET" [] [("code", code); ("state", "/lists")] (Some "abc").

End Requests.

(** ** internal/core/users.go: the operations that write *)

(** The statements executed against the store, with their arguments. *)
Inductive storeWrite : Type :=
| WriteCreateUser (username : string) (passwordLogin : bool)
    (password email : nullString) (name userType : string) (roleID : Z)
    (status : string)
| WriteUpdateUser (id : Z) (username : string) (passwordLogin : bool)
    (password email : nullString) (name userType : string) (roleID : Z)
    (status : string)
| WriteUpdateUserProfile (id : Z) (name : string) (email : nullString)
    (passwordLogin : bool) (password : nullString)
| WriteDeleteUsers (ids : list Z).

(** A [sql.Result] as the code reads it: what [RowsAffected()] returns. *)
Record sqlResult : Type := mkSqlResult {
  rowsAffected : Z;
  rowsAffectedErr : option error
}.

(** The prepared statements of [c.q] that write: [CreateUser.Get] scans the
    new id, the others are run with [Exec]. *)
Record Writes : Type := mkWrites {
  q_CreateUser : string → bool → nullString → nullString → string → string →
                 Z → string → Z + error;
  q_UpdateUser : Z → string → bool → nullString → nullString → string →
                 string → Z → string → sqlResult + error;
  q_UpdateUserProfile : Z → string → nullString → bool → nullString →
                        sqlResult + error;
  q_DeleteUsers : list Z → sqlResult + error
}.

(** The world of the writing operations: the clock and one log, in order,
    of the events of the reading code and of the statements executed. *)
Record coreWorld : Type := mkCoreWorld {
  coreNow : Z;
  coreLog : list (event + storeWrite)
}.

Definition W (A : Type) : Type := coreWorld → A * coreWorld.

Definition wret {A} (a : A) : W A := λ cw, (a, cw).

Definition wbind {A B} (m : W A) (k : A → W B) : W B :=
  λ cw, let (a, cw') := m cw in k a cw'.

Notation "'let+' x := m 'in' k" := (wbind m (λ x, k))
  (at level 10, x name, m at level 100, k at level 200).
Notation "'do+' m 'in' k" := (wbind m (λ _, k))
  (at level 10, m at level 100, k at level 200).

(** A computation of the reading code run inside the larger world: its
    events are appended to the log. *)
Definition liftM {A} (m : M A) : W A :=
  λ cw,
    let (a, w') := m (mkWorld (coreNow cw) []) in
    (a, mkCoreWorld (now w') (coreLog cw ++ (inl <$> trace w'))).

Definition executed (stmt : storeWrite) : W unit :=
  λ cw, (tt, mkCoreWorld (coreNow cw) (coreLog cw ++ [inr stmt])).

Module CoreWrites.
Section WithApp.
Variable app : App.
Variable db : Writes.

Definition errorCreatingUser (err : error) : error :=
  HTTPError StatusInternalServerError
    (i18n_Ts app "globals.messages.errorCreating"
       ["name"; "{globals.terms.user}"; "error"; pqErrMsg app err]).

Definition errorDeletingUser (err : error) : error :=
  HTTPError StatusInternalServerError
    (i18n_Ts app "globals.messages.errorDeleting"
       ["name"; "{globals.terms.user}"; "error"; pqErrMsg app err]).

Definition needSuper : error :=
  HTTPError StatusBadRequest (i18n_T app "users.needSuper").


(** [out, err := c.GetUser(id, "", ""); return out, err]. *)
Definition fetchByID (id : Z) : W (outcome (User * option error)) :=
  liftM (Core.GetUser app id "" "").

(** The insert and what follows it in [CreateUser], for the user [u] as it
    is after the API branch. *)
Definition insertUser (u : User) : W (outcome (User * option error)) :=
  do+ executed (WriteCreateUser (Username u) (PasswordLogin u) (Password u)
                  (Email u) (Name u) (UserType u) (RoleID u) (Status u)) in
  match q_CreateUser db (Username u) (PasswordLogin u) (Password u)
          (Email u) (Name u) (UserType u) (RoleID u) (Status u) with
  | inr err => wret (Returns (userZero, Some (errorCreatingUser err)))
  | inl id => fetchByID id
  end.

(** [u] with the e-mail, the login flag and the password of an API user. *)
Definition asAPIUser (u : User) (tk : string) : User :=
  {| ID := ID u;
     Username := Username u;
     Password := mkNullString tk true;
     PasswordLogin := false;
     Email := mkNullString (Username u ++ "@api") true;
     Name := Name u;
     UserType := UserType u;
     Status := Status u;
     RoleID := RoleID u;
     RoleName := RoleName u;
     RolePerms := RolePerms u;
     ListsPermsRaw := ListsPermsRaw u;
     Role := Role u;
     PermissionsMap := PermissionsMap u;
     ListPermissionsMap := ListPermissionsMap u;
     HasPassword := HasPassword u |}.

(** The assignment to [u.Password] after the insert has no effect on what
    is returned, which is fetched again by id. *)
Definition CreateUser (u : User) : W (outcome (User * option error)) :=
  if String.eqb (UserType u) UserTypeAPI then
    let+ generated := liftM (generateRandomString app 32) in
    match generated with
    | (_, Some err) => wret (Returns (userZero, Some err))
    | (tk, None) => insertUser (asAPIUser u tk)
    end
  else insertUser u.



Definition DeleteUsers (ids : list Z) : W (option error) :=
  do+ executed (WriteDeleteUsers ids) in
  match q_DeleteUsers db ids with
  | inr err => wret (Some (errorDeletingUser err))
  | inl res =>
      match rowsAffectedErr res with
      | Some _ => wret (Some needSuper)
      | None =>
          if (rowsAffected res =? 0)%Z then wret (Some needSuper)
          else wret None
      end
  end.

End WithApp.
End CoreWrites.

(** A store that accepts every statement, for the examples: the new user
    gets the id 4, every other statement affects one row. *)
Module SampleWrites.

Definition db : Writes :=
  {| q_CreateUser := λ _ _ _ _ _ _ _ _, inl 4%Z;
     q_UpdateUser := λ _ _ _ _ _ _ _ _ _, inl (mkSqlResult 1 None);
     q_UpdateUserProfile := λ _ _ _ _ _, inl (mkSqlResult 1 None);
     q_DeleteUsers := λ _, inl (mkSqlResult 1 None) |}.

(** A store on which no statement matches a row. *)
Definition dbNoMatch : Writes :=
  {| q_CreateUser := λ _ _ _ _ _ _ _ _, inr (ErrorString "duplicate key");
     q_UpdateUser := λ _ _ _ _ _ _ _ _ _, inl (mkSqlResult 0 None);
     q_UpdateUserProfile := λ _ _ _ _ _, inl (mkSqlResult 0 None);
     q_DeleteUsers := λ _, inl (mkSqlResult 0 None) |}.

Definition start : coreWorld := mkCoreWorld 0 [].

Definition newUser (username type : string) : User :=
  {| ID := 0; Username := username;
     Password := mkNullString "chosen password" true;
     PasswordLogin := true;
     Email := mkNullString "someone@example.com" true;
     Name := username; UserType := type; Status := "enabled";
     RoleID := 1; RoleName := ""; RolePerms := []; ListsPermsRaw := None;
     Role := userRoleZero; PermissionsMap := ∅; ListPermissionsMap := ∅;
     HasPassword := false |}.

End SampleWrites.

(** ** Kinds of events *)

(** The events of rendering the login page: reading random bytes, logging
    and setting a cookie. *)
Definition isPageEvent (ev : event) : bool :=
  match ev with
  | EvRandRead _ | EvSetCookie _ | EvLogPrintf _ _ => true
  | _ => false
  end.


(** A line written to the log. *)
Definition isLog (ev : event) : Prop := ∃ format args, ev = EvLogPrintf format args.

(** A host label: a string without a dot. *)
Definition dotFree (s : string) : bool := negb (Utils.inString "." s).

(** * Properties *)

(** ** Permission lookup maps *)

Section PermissionMaps.

Lemma permissionSet_acc (perms : list string) (acc : gset string) :
  fold_left (λ m p, {[p]} ∪ m) perms acc = list_to_set perms ∪ acc.
Proof.
  revert acc. induction perms as [|p perms IH]; intros acc; simpl.
  - set_solver.
  - rewrite IH. set_solver.
Qed.

Lemma permissionSet_list_to_set (perms : list string) :
  Core.permissionSet perms = list_to_set perms.
Proof. unfold Core.permissionSet. rewrite permissionSet_acc. set_solver. Qed.

Lemma alter_fold_insert (k : Z) (perms : list string) :
  ∀ (m : gmap Z (gset string)) (s : gset string),
    m !! k = Some s →
    fold_left (λ m perm, alter (λ s, {[perm]} ∪ s) k m) perms m
    = <[k := list_to_set perms ∪ s]> m.
Proof.
  induction perms as [|p perms IH]; intros m s Hk; simpl.
  - symmetry. apply insert_id. rewrite Hk. f_equal. set_solver.
  - rewrite (IH _ ({[p]} ∪ s)).
    + apply map_eq. intros i. destruct (decide (i = k)) as [->|Hne].
      * rewrite !lookup_insert_eq. f_equal. set_solver.
      * rewrite !lookup_insert_ne by done. by rewrite lookup_alter_ne.
    + by rewrite lookup_alter_eq, Hk.
Qed.

Lemma addListPermission_insert (m : gmap Z (gset string)) (p : ListPermission) :
  Core.addListPermission m p = <[lpID p := list_to_set (lpPermissions p)]> m.
Proof.
  unfold Core.addListPermission.
  rewrite (alter_fold_insert _ _ _ ∅) by apply lookup_insert_eq.
  rewrite insert_insert_eq. f_equal. set_solver.
Qed.

Lemma listPermissionsMap_snoc (l : list ListPermission) (p : ListPermission) :
  Core.listPermissionsMap (l ++ [p])
  = <[lpID p := list_to_set (lpPermissions p)]> (Core.listPermissionsMap l).
Proof.
  unfold Core.listPermissionsMap. rewrite fold_left_app. simpl.
  apply addListPermission_insert.
Qed.

Lemma listPermissionsMap_dom (l : list ListPermission) :
  dom (Core.listPermissionsMap l) = list_to_set (lpID <$> l).
Proof.
  induction l as [|p l IH] using rev_ind.
  - unfold Core.listPermissionsMap. simpl. set_solver.
  - rewrite listPermissionsMap_snoc, dom_insert_L, IH, fmap_app.
    rewrite list_to_set_app_L. simpl. set_solver.
Qed.

(** The grant that is the last one for its resource decides that entry. *)
Lemma listPermissionsMap_last (pre post : list ListPermission) (g : ListPermission) :
  (∀ g', g' ∈ post → lpID g' ≠ lpID g) →
  Core.listPermissionsMap (pre ++ g :: post) !! lpID g
  = Some (list_to_set (lpPermissions g)).
Proof.
  induction post as [|p post IH] using rev_ind; intros Hlater.
  - rewrite listPermissionsMap_snoc. apply lookup_insert_eq.
  - rewrite app_comm_cons, app_assoc.
    rewrite listPermissionsMap_snoc, lookup_insert_ne.
    + apply IH. intros g' Hin. apply Hlater. set_solver.
    + apply Hlater. set_solver.
Qed.

End PermissionMaps.

(** ** Runs of [getUsers] *)

Section GetUsersRuns.
Variable app : App.

Lemma expandUser_run (u : User) (w : world) :
  Core.expandUser app u w
  = (expanded app u, mkWorld (now w) (trace w ++ expandLog app u)).
Proof.
  unfold expanded, expandLog, Core.expandUser, Core.unmarshalListPerms, bind, ret, emit.
  destruct w as [t tr].
  destruct (ListsPermsRaw u) as [data|]; simpl.
  - destruct (json_Unmarshal app data) as [listPerms [e|]]; simpl;
      rewrite ?app_nil_r; reflexivity.
  - rewrite app_nil_r. reflexivity.
Qed.

Lemma rangeUsers_run (out : list User) (w : world) :
  Core.rangeUsers app out w
  = (expanded app <$> out,
     mkWorld (now w) (trace w ++ concat (expandLog app <$> out))).
Proof.
  revert w. induction out as [|u out IH]; intros w; simpl.
  - destruct w. unfold ret. simpl. rewrite app_nil_r. reflexivity.
  - unfold bind at 1. rewrite expandUser_run.
    unfold bind at 1. rewrite IH. unfold ret. simpl.
    rewrite <- app_assoc. reflexivity.
Qed.

Lemma getUsers_run (id : Z) (username email : string) (rows : list userRow) (w : world) :
  q_GetUsers app id username email = inl rows →
  rows ≠ [] →
  Core.getUsers app id username email w
  = ((expanded app <$> (scanUser <$> rows), None),
     mkWorld (now w)
       (trace w ++ EvGetUsers id username email
                     :: concat (expandLog app <$> (scanUser <$> rows)))).
Proof.
  intros Hq Hrows. unfold Core.getUsers, bind at 1, emit. rewrite Hq.
  destruct rows as [|r rows]; [done|].
  rewrite map_cons. cbn [length Nat.eqb].
  unfold bind at 1. rewrite rangeUsers_run. unfold ret. cbn [now trace].
  rewrite <- app_assoc. reflexivity.
Qed.

(** [getUsers] fails exactly when the query fails or yields no row. *)
Lemma getUsers_success_inv (id : Z) (username email : string)
    (out : list User) (w w' : world) :
  Core.getUsers app id username email w = ((out, None), w') →
  ∃ rows, q_GetUsers app id username email = inl rows ∧ rows ≠ [].
Proof.
  unfold Core.getUsers, bind at 1, emit.
  destruct (q_GetUsers app id username email) as [rows|err] eqn:Hq.
  - destruct rows as [|r rows]; simpl.
    + unfold ret. intros H. inversion H.
    + intros _. exists (r :: rows). split; [reflexivity | discriminate].
  - unfold ret. intros H. inversion H.
Qed.

Lemma expanded_grants (r : userRow) :
  roleLists (Role (expanded app (scanUser r))) = grantsOf app r
  ∧ ListPermissionsMap (expanded app (scanUser r))
    = Core.listPermissionsMap (grantsOf app r)
  ∧ PermissionsMap (expanded app (scanUser r))
    = Core.permissionSet (rowRolePerms r).
Proof.
  unfold expanded, grantsOf, Core.expandUser, Core.unmarshalListPerms, bind, ret, emit.
  simpl. destruct (rowListsPermsRaw r) as [data|]; simpl.
  - destruct (json_Unmarshal app data) as [listPerms [e|]]; simpl; auto.
  - auto.
Qed.

Lemma expanded_stored_fields (r : userRow) :
  ID (expanded app (scanUser r)) = rowID r
  ∧ Username (expanded app (scanUser r)) = rowUsername r
  ∧ Password (expanded app (scanUser r)) = rowPassword r
  ∧ Name (expanded app (scanUser r)) = rowName r
  ∧ UserType (expanded app (scanUser r)) = rowType r
  ∧ Status (expanded app (scanUser r)) = rowStatus r.
Proof.
  unfold expanded, Core.expandUser, Core.unmarshalListPerms, bind, ret, emit.
  simpl. destruct (rowListsPermsRaw r) as [data|]; simpl.
  - destruct (json_Unmarshal app data) as [listPerms [e|]]; simpl; auto 10.
  - auto 10.
Qed.

Lemma expanded_password (r : userRow) :
  HasPassword (expanded app (scanUser r))
  = negb (String.eqb (nsString (rowPassword r)) "")
  ∧ PasswordLogin (expanded app (scanUser r))
    = (if negb (String.eqb (nsString (rowPassword r)) "") then true
       else rowPasswordLogin r).
Proof.
  unfold expanded, Core.expandUser, Core.unmarshalListPerms, bind, ret, emit.
  simpl. destruct (rowListsPermsRaw r) as [data|]; simpl.
  - destruct (json_Unmarshal app data) as [listPerms [e|]]; simpl;
      destruct (String.eqb (nsString (rowPassword r)) ""); auto.
  - destruct (String.eqb (nsString (rowPassword r)) ""); auto.
Qed.

Lemma expanded_email (r : userRow) :
  Email (expanded app (scanUser r))
  = (if String.eqb (rowType r) UserTypeAPI then nullStringZero else rowEmail r).
Proof.
  unfold expanded, Core.expandUser, Core.unmarshalListPerms, bind, ret, emit.
  simpl. destruct (rowListsPermsRaw r) as [data|]; simpl.
  - destruct (json_Unmarshal app data) as [listPerms [e|]]; reflexivity.
  - reflexivity.
Qed.

Lemma expandLog_error (r : userRow) (data : string) (e : error) :
  rowListsPermsRaw r = Some data →
  snd (json_Unmarshal app data) = Some e →
  expandLog app (scanUser r)
  = [EvLogPrintf "error unmarshalling list permissions for role %d: %v"
       [ArgInt (rowID r); ArgErr e]].
Proof.
  intros Hraw Herr.
  unfold expandLog, Core.expandUser, Core.unmarshalListPerms, bind, ret, emit.
  simpl. rewrite Hraw.
  destruct (json_Unmarshal app data) as [listPerms err]. simpl in Herr.
  subst err. reflexivity.
Qed.

(** The [n]-th user of a successful fetch is the expansion of the [n]-th row. *)
Lemma getUsers_nth (id : Z) (username email : string) (rows : list userRow)
    (out : list User) (w w' : world) (n : nat) (r : userRow) :
  q_GetUsers app id username email = inl rows →
  Core.getUsers app id username email w = ((out, None), w') →
  rows !! n = Some r →
  out !! n = Some (expanded app (scanUser r))
  ∧ ∀ ev, ev ∈ expandLog app (scanUser r) → ev ∈ trace w'.
Proof.
  intros Hq Hrun Hn.
  assert (rows ≠ []) as Hne by (intros ->; discriminate).
  rewrite (getUsers_run _ _ _ _ _ Hq Hne) in Hrun.
  injection Hrun as <- <-. split.
  - rewrite !list_lookup_fmap, Hn. reflexivity.
  - intros ev Hev. simpl. apply elem_of_app. right. apply elem_of_cons. right.
    apply list_elem_of_In, in_concat.
    exists (expandLog app (scanUser r)). split; [|by apply list_elem_of_In].
    apply list_elem_of_In, list_elem_of_lookup. exists n.
    rewrite !list_lookup_fmap, Hn. reflexivity.
Qed.

End GetUsersRuns.

(** ** Permission expansion *)

(** C6, amended.  When the user query yields rows, [getUsers] succeeds with
    one user per row.  For each row, the user's global permission set holds
    exactly the role's flat permission strings; the keys of the resource map
    are exactly the resource identifiers of the grants left in [listPerms]
    by the decoder; each key maps to the set of exactly the permission
    strings of the last grant for that resource (the only one when resource
    identifiers are distinct).  When the decoder reports an error, the error
    is logged with the user's id and the record still loads, with the
    grants the decoder left in [listPerms]. *)
Theorem getUsers_permission_views (app : App) (id : Z) (username email : string)
    (rows : list userRow) (w : world) :
  q_GetUsers app id username email = inl rows →
  rows ≠ [] →
  ∃ out w',
    Core.getUsers app id username email w = ((out, None), w')
    ∧ length out = length rows
    ∧ ∀ n r, rows !! n = Some r →
        ∃ u, out !! n = Some u
          ∧ ID u = rowID r
          ∧ Username u = rowUsername r
          ∧ PermissionsMap u = list_to_set (rowRolePerms r)
          ∧ roleLists (Role u) = grantsOf app r
          ∧ dom (ListPermissionsMap u) = list_to_set (lpID <$> grantsOf app r)
          ∧ (∀ pre g post,
                grantsOf app r = (pre ++ g :: post)%list →
                (∀ g', g' ∈ post → lpID g' ≠ lpID g) →
                ListPermissionsMap u !! lpID g
                = Some (list_to_set (lpPermissions g)))
          ∧ (∀ data e,
                rowListsPermsRaw r = Some data →
                snd (json_Unmarshal app data) = Some e →
                EvLogPrintf "error unmarshalling list permissions for role %d: %v"
                  [ArgInt (rowID r); ArgErr e] ∈ trace w').
Proof.
  intros Hq Hne.
  pose proof (getUsers_run app id username email rows w Hq Hne) as Hrun.
  eexists _, _. split; [exact Hrun|]. split.
  - rewrite !length_fmap. reflexivity.
  - intros n r Hn.
    destruct (getUsers_nth app _ _ _ _ _ _ _ n r Hq Hrun Hn) as [Hout Hlog].
    exists (expanded app (scanUser r)). split; [exact Hout|].
    destruct (expanded_grants app r) as (Hlists & Hmap & Hperms).
    destruct (expanded_stored_fields app r) as (Hid & Hname & _).
    repeat split; try assumption.
    + rewrite Hperms. apply permissionSet_list_to_set.
    + rewrite Hmap. apply listPermissionsMap_dom.
    + intros pre g post Hsplit Hlater. rewrite Hmap, Hsplit.
      by apply listPermissionsMap_last.
    + intros data e Hraw Herr. apply Hlog.
      rewrite (expandLog_error app r data e Hraw Herr). apply list_elem_of_here.
Qed.

(** The spec's example: a role with the global permission ["users:manage"]
    and one grant [{5, ["list:view"]}]. *)
Lemma getUsers_permission_views_witness :
  q_GetUsers Sample.app 1 "" "" = inl [Sample.alice]
  ∧ ∃ u w',
      Core.getUsers Sample.app 1 "" "" Sample.start = (([u], None), w')
      ∧ PermissionsMap u = {["users:manage"]}
      ∧ dom (ListPermissionsMap u) = {[5]}
      ∧ ListPermissionsMap u !! 5 = Some {["list:view"]}.
Proof.
  split; [reflexivity|].
  destruct (getUsers_permission_views Sample.app 1 "" "" [Sample.alice] Sample.start
              eq_refl ltac:(discriminate))
    as (out & w' & Hrun & Hlen & Hrows).
  destruct (Hrows 0%nat Sample.alice eq_refl)
    as (u & Hu & _ & _ & Hperms & _ & Hdom & Hlast & _).
  destruct out as [|u0 [|u1 out]]; try discriminate Hlen.
  injection Hu as ->. exists u, w'. split; [exact Hrun|].
  split; [|split].
  - rewrite Hperms. simpl. set_solver.
  - rewrite Hdom. simpl. set_solver.
  - pose proof (Hlast [] (mkListPermission 5 ["list:view"]) [] eq_refl) as H5.
    cbn [lpID lpPermissions] in H5. rewrite H5.
    + f_equal; set_solver.
    + intros g' Hin. inversion Hin.
Defined.

(** C6 as stated fails on two inputs.  Two grants for the same resource: the
    entry of the resource holds the later grant's permissions, not the
    earlier one's.  A payload for which the decoder reports an error after
    it has decoded grants: the error is logged and the user still has
    per-resource grants. *)
Lemma getUsers_permission_views_counterexample :
  (∃ u g,
      fst (Core.getUsers Sample.app 2 "" "" Sample.start) = ([u], None)
      ∧ g ∈ grantsOf Sample.app Sample.bob
      ∧ ListPermissionsMap u !! lpID g ≠ Some (list_to_set (lpPermissions g)))
  ∧ (∃ u e,
        fst (Core.getUsers Sample.app 3 "" "" Sample.start) = ([u], None)
        ∧ rowListsPermsRaw Sample.carol = Some Sample.stringIDGrantJSON
        ∧ snd (json_Unmarshal Sample.app Sample.stringIDGrantJSON) = Some e
        ∧ roleLists (Role u) ≠ []
        ∧ "list:get" ∈ default ∅ (ListPermissionsMap u !! 5)).
Proof.
  split.
  - exists (expanded Sample.app (scanUser Sample.bob)),
           (mkListPermission 5 ["list:get"]).
    split; [|split].
    + rewrite (getUsers_run Sample.app 2 "" "" [Sample.bob])
        by (reflexivity || discriminate).
      reflexivity.
    + apply list_elem_of_here.
    + destruct (expanded_grants Sample.app Sample.bob) as (_ & Hmap & _).
      rewrite Hmap.
      change (grantsOf Sample.app Sample.bob)
        with ([mkListPermission 5 ["list:get"]] ++ [mkListPermission 5 ["list:manage"]])%list.
      rewrite listPermissionsMap_snoc, lookup_insert_eq.
      cbn [lpID lpPermissions]. intros Heq. apply (inj Some) in Heq.
      assert ("list:get" ∈ (list_to_set ["list:get"] : gset string)) as Hin
        by set_solver.
      rewrite <- Heq in Hin. set_solver.
  - exists (expanded Sample.app (scanUser Sample.carol)).
    eexists. split; [|split; [|split; [|split]]].
    + rewrite (getUsers_run Sample.app 3 "" "" [Sample.carol])
        by (reflexivity || discriminate).
      reflexivity.
    + reflexivity.
    + reflexivity.
    + destruct (expanded_grants Sample.app Sample.carol) as (Hlists & _ & _).
      rewrite Hlists. discriminate.
    + destruct (expanded_grants Sample.app Sample.carol) as (_ & Hmap & _).
      rewrite Hmap.
      change (grantsOf Sample.app Sample.carol)
        with ([mkListPermission 5 ["list:get"]] ++ [mkListPermission 0 ["list:manage"]])%list.
      rewrite listPermissionsMap_snoc, lookup_insert_ne by done.
      change [mkListPermission 5 ["list:get"]]
        with ([] ++ [mkListPermission 5 ["list:get"]])%list.
      rewrite listPermissionsMap_snoc, lookup_insert_eq.
      cbn [lpID lpPermissions default]. set_solver.
Qed.

(** ** Derived flags of a fetched user *)

(** C7.  For every user of a successful fetch, [HasPassword] is true exactly
    when the stored password is not empty, and then [PasswordLogin] is true
    whatever the stored login-method flag was. *)
Theorem getUsers_has_password (app : App) (id : Z) (username email : string)
    (rows : list userRow) (out : list User) (w w' : world)
    (n : nat) (r : userRow) (u : User) :
  q_GetUsers app id username email = inl rows →
  Core.getUsers app id username email w = ((out, None), w') →
  rows !! n = Some r →
  out !! n = Some u →
  (HasPassword u = true ↔ nsString (rowPassword r) ≠ "")
  ∧ (HasPassword u = true → PasswordLogin u = true).
Proof.
  intros Hq Hrun Hr Hu.
  destruct (getUsers_nth app _ _ _ _ _ _ _ n r Hq Hrun Hr) as [Hout _].
  rewrite Hout in Hu. injection Hu as <-.
  destruct (expanded_password app r) as [Hhas Hlogin].
  rewrite Hhas, Hlogin.
  destruct (String.eqb_spec (nsString (rowPassword r)) "") as [Heq|Hneq]; simpl.
  - split; [|discriminate]. split; [discriminate|]. intros Hno. by destruct Hno.
  - split; [|reflexivity]. split; [intros _; exact Hneq | reflexivity].
Qed.

(** Alice has a stored password and a stored login-method flag of [false];
    Bob has no password. *)
Lemma getUsers_has_password_witness :
  (∃ u, fst (fst (Core.getUsers Sample.app 1 "" "" Sample.start)) = [u]
        ∧ rowPasswordLogin Sample.alice = false
        ∧ HasPassword u = true ∧ PasswordLogin u = true)
  ∧ (∃ u, fst (fst (Core.getUsers Sample.app 2 "" "" Sample.start)) = [u]
          ∧ HasPassword u = false).
Proof.
  split.
  - exists (expanded Sample.app (scanUser Sample.alice)).
    split; [reflexivity|]. split; [reflexivity|].
    destruct (getUsers_has_password Sample.app 1 "" "" [Sample.alice]
                [expanded Sample.app (scanUser Sample.alice)]
                Sample.start (snd (Core.getUsers Sample.app 1 "" "" Sample.start))
                0%nat Sample.alice (expanded Sample.app (scanUser Sample.alice))
                eq_refl eq_refl eq_refl eq_refl) as [[_ Hhas] Hlogin].
    assert (HasPassword (expanded Sample.app (scanUser Sample.alice)) = true) as H
      by (apply Hhas; discriminate).
    split; [exact H | exact (Hlogin H)].
  - exists (expanded Sample.app (scanUser Sample.bob)).
    split; [reflexivity|].
    destruct (getUsers_has_password Sample.app 2 "" "" [Sample.bob]
                [expanded Sample.app (scanUser Sample.bob)]
                Sample.start (snd (Core.getUsers Sample.app 2 "" "" Sample.start))
                0%nat Sample.bob (expanded Sample.app (scanUser Sample.bob))
                eq_refl eq_refl eq_refl eq_refl) as [[Hhas _] _].
    destruct (HasPassword (expanded Sample.app (scanUser Sample.bob))); [|reflexivity].
    exfalso. by apply Hhas.
Defined.

(** C8.  For every user of a successful fetch whose type is the
    machine-token type, the email of the output is the zero [null.String]:
    an empty string that is not valid, whatever email was stored. *)
Theorem getUsers_api_email_scrubbed (app : App) (id : Z) (username email : string)
    (rows : list userRow) (out : list User) (w w' : world)
    (n : nat) (r : userRow) (u : User) :
  q_GetUsers app id username email = inl rows →
  Core.getUsers app id username email w = ((out, None), w') →
  rows !! n = Some r →
  out !! n = Some u →
  rowType r = UserTypeAPI →
  UserType u = UserTypeAPI
  ∧ nsString (Email u) = ""
  ∧ nsValid (Email u) = false.
Proof.
  intros Hq Hrun Hr Hu Htype.
  destruct (getUsers_nth app _ _ _ _ _ _ _ n r Hq Hrun Hr) as [Hout _].
  rewrite Hout in Hu. injection Hu as <-.
  destruct (expanded_stored_fields app r) as (_ & _ & _ & _ & Hty & _).
  rewrite Hty, expanded_email, Htype, String.eqb_refl. auto.
Qed.

(** The stored placeholder ["bot@api"] of the machine user does not show. *)
Lemma getUsers_api_email_scrubbed_witness :
  rowEmail Sample.bot = mkNullString "bot@api" true
  ∧ ∃ u, fst (fst (Core.getUsers Sample.app 4 "" "" Sample.start)) = [u]
         ∧ nsString (Email u) = "" ∧ nsValid (Email u) = false.
Proof.
  split; [reflexivity|].
  exists (expanded Sample.app (scanUser Sample.bot)). split; [reflexivity|].
  exact (proj2 (getUsers_api_email_scrubbed Sample.app 4 "" "" [Sample.bot]
                  [expanded Sample.app (scanUser Sample.bot)]
                  Sample.start (snd (Core.getUsers Sample.app 4 "" "" Sample.start))
                  0%nat Sample.bot (expanded Sample.app (scanUser Sample.bot))
                  eq_refl eq_refl eq_refl eq_refl eq_refl)).
Defined.

(** ** The single-user fetch *)

Lemma getUsers_success_nonempty (app : App) (id : Z) (username email : string)
    (out : list User) (w w' : world) :
  Core.getUsers app id username email w = ((out, None), w') → out ≠ [].
Proof.
  intros Hrun.
  destruct (getUsers_success_inv app _ _ _ _ _ _ Hrun) as (rows & Hq & Hne).
  rewrite (getUsers_run app _ _ _ _ _ Hq Hne) in Hrun.
  injection Hrun as <- _. destruct rows; [done|discriminate].
Qed.

(** C10.  [GetUser] never panics on [out[0]]: whenever [getUsers] returns
    without an error the list is not empty, zero matching rows being an
    error; so [GetUser] always returns, either the first user of a
    successful fetch or the error of a failed one. *)
Theorem GetUser_never_panics (app : App) (id : Z) (username email : string) (w : world) :
  (∀ id0 username0 email0 w0 out w',
      Core.getUsers app id0 username0 email0 w0 = ((out, None), w') →
      out ≠ [])
  ∧ (∀ id0 username0 email0 w0,
        q_GetUsers app id0 username0 email0 = inl [] →
        fst (Core.getUsers app id0 username0 email0 w0)
        = ([], Some (ErrorString "user not found")))
  ∧ ((∃ u rest w',
         Core.getUsers app id username (strings_ToLower app email) w
         = ((u :: rest, None), w')
         ∧ Core.GetUser app id username email w = (Returns (u, None), w'))
     ∨ (∃ out e w',
           Core.getUsers app id username (strings_ToLower app email) w
           = ((out, Some e), w')
           ∧ Core.GetUser app id username email w
             = (Returns (userZero, Some (Core.errorFetchingUsers app e)), w'))).
Proof.
  split; [|split].
  - intros id0 username0 email0 w0 out w'. apply getUsers_success_nonempty.
  - intros id0 username0 email0 w0 Hq.
    unfold Core.getUsers, bind, emit, ret. rewrite Hq. reflexivity.
  - unfold Core.GetUser, bind.
    destruct (Core.getUsers app id username (strings_ToLower app email) w)
      as [[out [e|]] w'] eqn:Hrun.
    + right. exists out, e, w'. split; reflexivity.
    + left. pose proof (getUsers_success_nonempty app _ _ _ _ _ _ Hrun) as Hne.
      destruct out as [|u rest]; [done|].
      exists u, rest, w'. split; reflexivity.
Qed.

(** A fetch by an email that matches no row returns an error. *)
Lemma GetUser_never_panics_witness :
  fst (Core.GetUser Sample.app 0 "" "nobody@example.com" Sample.start)
  = Returns (userZero,
             Some (Core.errorFetchingUsers Sample.app
                     (ErrorString "user not found")))
  ∧ ∃ u, fst (Core.GetUser Sample.app 0 "" "Alice@Example.com" Sample.start)
         = Returns (u, None).
Proof.
  split.
  - destruct (GetUser_never_panics Sample.app 0 "" "nobody@example.com" Sample.start)
      as (_ & _ & [(u & rest & w' & Hrun & _) | (out & e & w' & Hrun & Hget)]).
    + discriminate Hrun.
    + rewrite Hget. injection Hrun as _ <- _. reflexivity.
  - destruct (GetUser_never_panics Sample.app 0 "" "Alice@Example.com" Sample.start)
      as (_ & _ & [(u & rest & w' & _ & Hget) | (out & e & w' & Hrun & _)]).
    + exists u. rewrite Hget. reflexivity.
    + discriminate Hrun.
Defined.

(** ** Random strings *)

Section RandomStrings.

Lemma length_string_of_list_ascii (l : list ascii) :
  String.length (string_of_list_ascii l) = length l.
Proof. induction l as [|ch l IH]; simpl; [reflexivity | by rewrite IH]. Qed.

Lemma dictAt_in_dictionary (v : byte) :
  Utils.inString (Utils.dictAt v) Utils.dictionary = true.
Proof. destruct v; vm_compute; reflexivity. Qed.

Lemma dictionary_alphanumeric (ch : ascii) :
  Utils.inString ch Utils.dictionary = isAlnum ch.
Proof.
  destruct ch as [b0 b1 b2 b3 b4 b5 b6 b7].
  destruct b0, b1, b2, b3, b4, b5, b6, b7; vm_compute; reflexivity.
Qed.

(** C9.  When the random source fills the [n] bytes, the result has length
    exactly [n] and each of its characters belongs to the dictionary; when
    the source fails, the result is the empty string with that error.  The
    dictionary has 62 characters: the digits and the upper-case and
    lower-case letters. *)
Theorem GenerateRandomString_alphanumeric (rand : Utils.randSource) (n : nat) :
  match rand n with
  | inl _ =>
      ∃ s, Utils.GenerateRandomString rand n = (s, None)
           ∧ String.length s = n
           ∧ Utils.allInDictionary s = true
  | inr err => Utils.GenerateRandomString rand n = ("", Some err)
  end
  ∧ String.length Utils.dictionary = 62%nat
  ∧ ∀ ch, Utils.inString ch Utils.dictionary = isAlnum ch.
Proof.
  split; [|split; [reflexivity | exact dictionary_alphanumeric]].
  unfold Utils.GenerateRandomString.
  destruct (rand n) as [filled|err]; [|reflexivity].
  eexists. split; [reflexivity|]. split.
  - rewrite length_string_of_list_ascii, !length_map.
    unfold Utils.indices. apply length_seq.
  - unfold Utils.allInDictionary.
    rewrite list_ascii_of_string_of_list_ascii.
    apply forallb_forall. intros ch Hin.
    apply in_map_iff in Hin as (v & <- & _). apply dictAt_in_dictionary.
Qed.

Example GenerateRandomString_sample :
  Utils.GenerateRandomString Sample.randomBytes 16 = ("BmNyZAlEpQ1cDoHs", None)
  ∧ Utils.GenerateRandomString Sample.randomBytes 0 = ("", None)
  ∧ Utils.GenerateRandomString Sample.noEntropy 16
    = ("", Some (ErrorString "entropy source unavailable")).
Proof. repeat split; reflexivity. Qed.

End RandomStrings.

(** ** The password form *)

Section PasswordLogin.
Variable app : App.

Lemma strHasLen_false (str : string) (min max : Z) :
  (Z.of_nat (String.length str) < min ∨ max < Z.of_nat (String.length str))%Z →
  strHasLen str min max = false.
Proof. unfold strHasLen. intros [H|H]; apply andb_false_iff; lia. Qed.

Lemma strHasLen_true (str : string) (min max : Z) :
  strHasLen str min max = true
  ↔ (min ≤ Z.of_nat (String.length str) ≤ max)%Z.
Proof. unfold strHasLen. rewrite andb_true_iff. lia. Qed.

(** A failed verification is returned at once: the clock has advanced by
    the time the store took and nothing has slept. *)
Lemma doLogin_failure_run (c : Context) (w : world) (e : error) :
  strHasLen (submittedUsername app c) 3 (stdInputMaxLen app) = true →
  strHasLen (submittedPassword app c) 8 (stdInputMaxLen app) = true →
  snd (fst (Core.LoginUser app (submittedUsername app c) (submittedPassword app c) w))
  = Some e →
  doLogin app c w
  = (Some e,
     mkWorld (now w + Z.of_N (q_LoginUser_took app (submittedUsername app c)
                                (submittedPassword app c)))
             (trace w ++ [EvLoginUser (submittedUsername app c)
                            (submittedPassword app c)])).
Proof.
  unfold doLogin, submittedUsername, submittedPassword. intros -> -> Herr.
  cbn [negb]. unfold bind at 1, timeNow. unfold bind at 1.
  revert Herr. unfold Core.LoginUser, bind, emit, elapse, ret. cbn [now trace].
  destruct (q_LoginUser app _ _) as [row|[|code msg|text]]; cbn [fst snd];
    intros Herr; inversion Herr; reflexivity.
Qed.

(** Credentials of a wrong length are refused before anything else is done. *)
Lemma doLogin_rejects_lengths (c : Context) (w : world) :
  (Z.of_nat (String.length (submittedUsername app c)) < 3
   ∨ stdInputMaxLen app < Z.of_nat (String.length (submittedUsername app c))
   ∨ Z.of_nat (String.length (submittedPassword app c)) < 8
   ∨ stdInputMaxLen app < Z.of_nat (String.length (submittedPassword app c)))%Z →
  ∃ message, doLogin app c w = (Some (HTTPError StatusBadRequest message), w).
Proof.
  intros Hbad. unfold doLogin.
  fold (submittedUsername app c). fold (submittedPassword app c).
  destruct (strHasLen (submittedUsername app c) 3 (stdInputMaxLen app)) eqn:Hu;
    cbn [negb].
  - rewrite (strHasLen_false (submittedPassword app c) 8).
    + eexists. reflexivity.
    + apply strHasLen_true in Hu. lia.
  - eexists. reflexivity.
Qed.

(** The login page handler then renders the page again with that error. *)
Lemma handleLoginPage_rejects_lengths (c : Context) (w : world) :
  Method c = "POST" →
  (Z.of_nat (String.length (submittedUsername app c)) < 3
   ∨ stdInputMaxLen app < Z.of_nat (String.length (submittedUsername app c))
   ∨ Z.of_nat (String.length (submittedPassword app c)) < 8
   ∨ stdInputMaxLen app < Z.of_nat (String.length (submittedPassword app c)))%Z →
  ∃ message,
    handleLoginPage app c w
    = renderLoginPage app c (Some (HTTPError StatusBadRequest message)) w.
Proof.
  intros Hpost Hbad. destruct (doLogin_rejects_lengths c w Hbad) as [message Hrun].
  exists message. unfold handleLoginPage.
  rewrite Hpost, String.eqb_refl. unfold bind. rewrite Hrun. reflexivity.
Qed.

(** The nonce of the form and the nonce cookie have no part in [doLogin]. *)
Lemma doLogin_ignores_nonce (c c' : Context) (w : world) :
  FormValue c "username" = FormValue c' "username" →
  FormValue c "password" = FormValue c' "password" →
  doLogin app c w = doLogin app c' w.
Proof. unfold doLogin. intros -> ->. reflexivity. Qed.

End PasswordLogin.

(** C3.  When the trimmed username is shorter than 3 or longer than the
    maximum input length, or the trimmed password is shorter than 8 or
    longer than that maximum, [doLogin] returns a BadRequest (400) error
    and leaves the world as it was: no call to the store's [LoginUser] has
    been made. *)
Theorem doLogin_invalid_input (app : App) (c : Context) (w : world) :
  (Z.of_nat (String.length (submittedUsername app c)) < 3
   ∨ stdInputMaxLen app < Z.of_nat (String.length (submittedUsername app c))
   ∨ Z.of_nat (String.length (submittedPassword app c)) < 8
   ∨ stdInputMaxLen app < Z.of_nat (String.length (submittedPassword app c)))%Z →
  ∃ message,
    doLogin app c w = (Some (HTTPError StatusBadRequest message), w)
    ∧ ∀ username password,
        EvLoginUser username password ∈ trace (snd (doLogin app c w)) →
        EvLoginUser username password ∈ trace w.
Proof.
  intros Hbad. destruct (doLogin_rejects_lengths app c w Hbad) as [message Hrun].
  exists message. split; [exact Hrun|].
  rewrite Hrun. intros username password Hin. exact Hin.
Qed.

(** The username ["ab"] is refused before the store is asked. *)
Lemma doLogin_invalid_input_witness :
  String.length (submittedUsername Sample.app Requests.shortUsername) = 2%nat
  ∧ doLogin Sample.app Requests.shortUsername Sample.start
    = (Some (HTTPError 400 "globals.messages.invalidFields: name, username"),
       Sample.start).
Proof.
  split; [reflexivity|].
  destruct (doLogin_invalid_input Sample.app Requests.shortUsername Sample.start)
    as (message & Hrun & _).
  - left. vm_compute. reflexivity.
  - rewrite Hrun. vm_compute in Hrun. injection Hrun as <-. reflexivity.
Defined.

(** C1.  A failed password attempt with the store answering after 5ms:
    [doLogin] returns the error 5ms after it started, without any sleep; the
    response-time floor of 100ms does not hold. *)
Theorem doLogin_failed_attempt_not_padded :
  doLogin Sample.app Requests.wrongPassword Sample.start
  = (Some (HTTPError StatusForbidden "users.invalidLogin"),
     mkWorld 5000000 [EvLoginUser "alice" "wrong password"])
  ∧ (Milliseconds (now (snd (doLogin Sample.app Requests.wrongPassword Sample.start))
                   - now Sample.start) < 100)%Z.
Proof. split; [reflexivity | vm_compute; reflexivity]. Qed.

(** C2.  A password submission whose form nonce differs from the nonce
    cookie: the store is asked to verify the credentials and the login
    succeeds with a session. *)
Theorem doLogin_forged_nonce_accepted :
  CookieValue Requests.forgedNonce "nonce" = Some "abc"
  ∧ FormValue Requests.forgedNonce "nonce" = "forged"
  ∧ fst (doLogin Sample.app Requests.forgedNonce Sample.start) = None
  ∧ trace (snd (doLogin Sample.app Requests.forgedNonce Sample.start))
    = [EvLoginUser "alice" "correct horse";
       EvSleep 5;
       EvSetSession (scanUser Sample.alice) ""].
Proof. repeat split; reflexivity. Qed.

(** ** Federated login: initiation *)

(** With a bound nonce the handler redirects to the identity provider. *)
Lemma handleOIDCLogin_bound (app : App) (c : Context) (w : world) :
  nonceBound c →
  ∃ next, handleOIDCLogin app c w
          = (Redirect StatusFound
               (auth_GetOIDCAuthURL app next (FormValue c "nonce")), w).
Proof.
  intros (nonce & Hcookie & Hne & Heq). unfold handleOIDCLogin.
  rewrite Hcookie, <- Heq, String.eqb_refl.
  destruct (String.eqb_spec nonce "") as [->|_]; [done|].
  eexists. reflexivity.
Qed.

(** C4.  Unless the nonce cookie is present, not empty and equal to the
    form's nonce, [handleOIDCLogin] fails with an Unauthorized (401) error;
    nothing is redirected and the world is left as it was. *)
Theorem handleOIDCLogin_unbound_nonce (app : App) (c : Context) (w : world) :
  ¬ nonceBound c →
  handleOIDCLogin app c w
  = (Failed (HTTPError StatusUnauthorized (i18n_T app "users.invalidRequest")), w).
Proof.
  intros Hunbound. unfold handleOIDCLogin, invalidRequest.
  destruct (CookieValue c "nonce") as [nonce|] eqn:Hcookie; [|reflexivity].
  destruct (String.eqb_spec nonce "") as [->|Hne]; [reflexivity|].
  destruct (String.eqb_spec nonce (FormValue c "nonce")) as [Heq|_]; [|reflexivity].
  exfalso. apply Hunbound. exists nonce. auto.
Qed.

(** An empty cookie against the form nonce ["abc"], and a cookie ["abc"]
    against the form nonce ["forged"]. *)
Lemma handleOIDCLogin_unbound_nonce_witness :
  fst (handleOIDCLogin Sample.app Requests.emptyCookie Sample.start)
  = Failed (HTTPError 401 "users.invalidRequest")
  ∧ fst (handleOIDCLogin Sample.app Requests.forgedNonce Sample.start)
    = Failed (HTTPError 401 "users.invalidRequest").
Proof.
  split.
  - rewrite (handleOIDCLogin_unbound_nonce Sample.app Requests.emptyCookie Sample.start).
    + reflexivity.
    + intros (nonce & Hcookie & Hne & _). vm_compute in Hcookie.
      injection Hcookie as <-. by apply Hne.
  - rewrite (handleOIDCLogin_unbound_nonce Sample.app Requests.forgedNonce Sample.start).
    + reflexivity.
    + intros (nonce & Hcookie & _ & Heq). vm_compute in Hcookie, Heq.
      injection Hcookie as <-. discriminate Heq.
Defined.

Example handleOIDCLogin_redirects :
  fst (handleOIDCLogin Sample.app Requests.boundNonce Sample.start)
  = Redirect 302 "https://accounts.google.com/o/oauth2/auth?state=/lists&nonce=abc".
Proof. reflexivity. Qed.

(** ** Federated login: completion *)

Section Completion.
Variable app : App.

(** The login page is rendered with the error's text whenever its nonce can
    be generated; otherwise the handler fails with a BadRequest error. *)
Lemma renderLoginPage_result (c : Context) (loginErr : option error) (w : world) :
  match rand_Read app 16%nat with
  | inl _ =>
      ∃ page, fst (renderLoginPage app c loginErr w) = Render StatusOK "admin-login" page
              ∧ Error page = loginErrorText loginErr
  | inr _ =>
      fst (renderLoginPage app c loginErr w)
      = Failed (HTTPError StatusBadRequest (i18n_T app "globals.messages.internalError"))
  end.
Proof.
  unfold renderLoginPage, generateRandomString, Utils.GenerateRandomString,
    bind, emit, ret.
  destruct (providerBadge app) as [provider logo].
  destruct (rand_Read app 16%nat) as [filled|err]; cbn [fst snd].
  - eexists. split; reflexivity.
  - reflexivity.
Qed.

Lemma getUsers_result_any_world (id : Z) (username email : string) (w1 w2 : world) :
  fst (Core.getUsers app id username email w1)
  = fst (Core.getUsers app id username email w2).
Proof.
  destruct (q_GetUsers app id username email) as [rows|err] eqn:Hq.
  - destruct rows as [|r rows].
    + unfold Core.getUsers, bind, emit, ret. rewrite Hq. reflexivity.
    + rewrite !(getUsers_run app _ _ _ (r :: rows)) by (exact Hq || discriminate).
      reflexivity.
  - unfold Core.getUsers, bind, emit, ret. rewrite Hq. reflexivity.
Qed.

Lemma GetUser_result_any_world (email : string) (w : world) :
  fst (Core.GetUser app 0 "" email w) = fetchedByEmail app email.
Proof.
  unfold fetchedByEmail, Core.GetUser, bind.
  pose proof (getUsers_result_any_world 0 "" (strings_ToLower app email)
                w (mkWorld 0 [])) as Hsame.
  destruct (Core.getUsers app 0 "" (strings_ToLower app email) w) as [[out err] w1].
  destruct (Core.getUsers app 0 "" (strings_ToLower app email) (mkWorld 0 []))
    as [[out' err'] w2].
  cbn [fst] in Hsame. injection Hsame as <- <-.
  destruct err as [e|]; [reflexivity|]. destruct out; reflexivity.
Qed.

Lemma fetchedByEmail_returns (email : string) :
  ∃ user err, fetchedByEmail app email = Returns (user, err).
Proof.
  unfold fetchedByEmail, Core.GetUser, bind.
  destruct (Core.getUsers app 0 "" (strings_ToLower app email) (mkWorld 0 []))
    as [[out [e|]] w'] eqn:Hrun.
  - eexists _, _. reflexivity.
  - pose proof (getUsers_success_nonempty app _ _ _ _ _ _ Hrun) as Hne.
    destruct out as [|u rest]; [done|]. eexists _, _. reflexivity.
Qed.

End Completion.

Lemma handleOIDCFinish_cases (app : App) (c : Context) (w : world) :
  ∃ path,
    finishPath app c path
    ∧ match path with
      | None =>
          fst (handleOIDCFinish app c w)
          = Redirect StatusFound (SanitizeURI app (QueryParam c "state"))
      | Some err =>
          ∃ w1, handleOIDCFinish app c w = renderLoginPage app c (Some err) w1
      end.
Proof.
  unfold handleOIDCFinish.
  destruct (CookieValue c "nonce") as [nonce|] eqn:Hcookie.
  2: { exists (Some (invalidRequest app)).
       split; [constructor; auto | exists w; reflexivity]. }
  destruct (String.eqb_spec nonce "") as [->|Hne].
  { exists (Some (invalidRequest app)).
    split; [constructor; auto | exists w; reflexivity]. }
  unfold exchangeOIDCToken, setSession, Core.UpdateUserLogin, bind, emit, ret.
  cbn [now trace].
  destruct (auth_ExchangeOIDCToken app (QueryParam c "code") nonce)
    as [[token claims]|err] eqn:Hexchange.
  2: { exists (Some err).
       split; [eapply FinishExchangeFailed; eauto | eexists; reflexivity]. }
  match goal with
  | |- context [Core.GetUser app 0 "" (claimEmail claims) ?w1] =>
      pose proof (GetUser_result_any_world app (claimEmail claims) w1) as Hfetch;
      destruct (Core.GetUser app 0 "" (claimEmail claims) w1) as [fetched w2]
  end.
  cbn [fst] in Hfetch.
  destruct (fetchedByEmail_returns app (claimEmail claims)) as (user & err & Hret).
  rewrite Hret in Hfetch. subst fetched.
  destruct err as [err|].
  { exists (Some err).
    split; [eapply FinishUserNotFound; eauto | eexists; reflexivity]. }
  destruct (q_UpdateUserLogin app (ID user) (claimPicture claims))
    as [err|] eqn:Hupdate.
  { exists (Some (Core.errorUpdatingUser app err)).
    split; [eapply FinishUpdateFailed; eauto | eexists; reflexivity]. }
  destruct (auth_SetSession app user token) as [err|] eqn:Hsession.
  { exists (Some err).
    split; [eapply FinishSessionFailed; eauto | eexists; reflexivity]. }
  exists None. split; [eapply FinishSuccess; eauto | reflexivity].
Qed.

(** C5, amended.  Every run of [handleOIDCFinish] takes one of the ways of
    [finishPath].  When a step fails -- no nonce cookie or an empty one (an
    Unauthorized error), the token exchange, the lookup of the user by the
    verified email, the update of the last login, the creation of the
    session -- the login page is rendered again with that error's text,
    provided the fresh nonce of the page can be generated; when the random
    source fails, the handler returns a BadRequest error instead.  When
    every step succeeds, and only then, the handler redirects to the
    sanitized state URI. *)
Theorem handleOIDCFinish_outcomes (app : App) (c : Context) (w : world) :
  ∃ path,
    finishPath app c path
    ∧ match path with
      | None =>
          fst (handleOIDCFinish app c w)
          = Redirect StatusFound (SanitizeURI app (QueryParam c "state"))
      | Some err =>
          match rand_Read app 16%nat with
          | inl _ =>
              ∃ page,
                fst (handleOIDCFinish app c w) = Render StatusOK "admin-login" page
                ∧ Error page = loginErrorText (Some err)
          | inr _ =>
              fst (handleOIDCFinish app c w)
              = Failed (HTTPError StatusBadRequest
                          (i18n_T app "globals.messages.internalError"))
          end
      end.
Proof.
  destruct (handleOIDCFinish_cases app c w) as (path & Hpath & Hrun).
  exists path. split; [exact Hpath|].
  destruct path as [err|]; [|exact Hrun].
  destruct Hrun as (w1 & ->). apply renderLoginPage_result.
Qed.

Example handleOIDCFinish_samples :
  fst (handleOIDCFinish Sample.app (Requests.callback "good-code") Sample.start)
  = Redirect 302 "/lists"
  ∧ (∃ page,
        fst (handleOIDCFinish Sample.app (Requests.callback "stale-code") Sample.start)
        = Render 200 "admin-login" page
        ∧ Error page = "error exchanging OIDC token")
  ∧ (∃ page,
        fst (handleOIDCFinish Sample.app Requests.callbackWithoutCookie Sample.start)
        = Render 200 "admin-login" page
        ∧ Error page = "users.invalidRequest").
Proof. repeat split; eexists; split; reflexivity. Qed.

(** C5 as stated fails when the random source fails: a callback without a
    nonce cookie then ends in a BadRequest error handed to the framework,
    not in a rendered login page. *)
Lemma handleOIDCFinish_counterexample :
  CookieValue Requests.callbackWithoutCookie "nonce" = None
  ∧ fst (handleOIDCFinish Sample.appNoEntropy Requests.callbackWithoutCookie Sample.start)
    = Failed (HTTPError StatusBadRequest "globals.messages.internalError")
  ∧ ∀ code name page,
      fst (handleOIDCFinish Sample.appNoEntropy Requests.callbackWithoutCookie Sample.start)
      ≠ Render code name page.
Proof. repeat split. intros code name page. discriminate. Qed.

(** * Further properties of the code *)

(** ** [getUsers]: grants, log, role and stored fields *)

Section FetchedUsers.
Variable app : App.

(** The line [getUsers] logs for a row: one when the decoder reports an
    error for its payload, none otherwise. *)
Lemma expandLog_cases (r : userRow) :
  expandLog app (scanUser r)
  = match rowListsPermsRaw r with
    | Some data =>
        match snd (json_Unmarshal app data) with
        | Some e =>
            [EvLogPrintf "error unmarshalling list permissions for role %d: %v"
               [ArgInt (rowID r); ArgErr e]]
        | None => []
        end
    | None => []
    end.
Proof.
  unfold expandLog, Core.expandUser, Core.unmarshalListPerms, bind, ret, emit.
  simpl. destruct (rowListsPermsRaw r) as [data|]; [|reflexivity].
  destruct (json_Unmarshal app data) as [listPerms [e|]]; reflexivity.
Qed.

Lemma expanded_role (r : userRow) :
  RoleID (expanded app (scanUser r)) = 0
  ∧ Role (expanded app (scanUser r))
    = mkUserRole (rowRoleID r) (rowRoleName r) (rowRolePerms r) (grantsOf app r)
  ∧ RoleName (expanded app (scanUser r)) = rowRoleName r
  ∧ RolePerms (expanded app (scanUser r)) = rowRolePerms r
  ∧ ListsPermsRaw (expanded app (scanUser r)) = rowListsPermsRaw r.
Proof.
  unfold expanded, grantsOf, Core.expandUser, Core.unmarshalListPerms, bind, ret, emit.
  simpl. destruct (rowListsPermsRaw r) as [data|]; simpl.
  - destruct (json_Unmarshal app data) as [listPerms [e|]]; simpl; auto.
  - auto.
Qed.

Lemma listPermissionsMap_distinct (l : list ListPermission) (g : ListPermission) :
  NoDup (lpID <$> l) →
  g ∈ l →
  Core.listPermissionsMap l !! lpID g = Some (list_to_set (lpPermissions g)).
Proof.
  intros Hnodup Hin.
  apply list_elem_of_split in Hin as (pre & post & ->).
  apply listPermissionsMap_last. intros g' Hg' Heq.
  rewrite fmap_app, fmap_cons in Hnodup.
  apply NoDup_app in Hnodup as (_ & _ & Hpost).
  apply NoDup_cons in Hpost as [Hnotin _].
  apply Hnotin. rewrite <- Heq. apply list_elem_of_fmap. exists g'. auto.
Qed.

Lemma listPermissionsMap_absent (l : list ListPermission) (k : Z) :
  k ∉ (lpID <$> l) → Core.listPermissionsMap l !! k = None.
Proof.
  intros Hk. apply not_elem_of_dom. rewrite listPermissionsMap_dom.
  by rewrite elem_of_list_to_set.
Qed.

End FetchedUsers.

(** X1.  When the grants decoded for a row name pairwise distinct resources,
    every grant is found in the user's resource map: its resource maps to
    the set of exactly its permissions, and every other resource identifier
    has no entry. *)
Theorem getUsers_distinct_grants (app : App) (id : Z) (username email : string)
    (rows : list userRow) (out : list User) (w w' : world)
    (n : nat) (r : userRow) (u : User) :
  q_GetUsers app id username email = inl rows →
  Core.getUsers app id username email w = ((out, None), w') →
  rows !! n = Some r →
  out !! n = Some u →
  NoDup (lpID <$> grantsOf app r) →
  (∀ g, g ∈ grantsOf app r →
        ListPermissionsMap u !! lpID g = Some (list_to_set (lpPermissions g)))
  ∧ (∀ k, k ∉ (lpID <$> grantsOf app r) → ListPermissionsMap u !! k = None).
Proof.
  intros Hq Hrun Hr Hu Hnodup.
  destruct (getUsers_nth app _ _ _ _ _ _ _ n r Hq Hrun Hr) as [Hout _].
  rewrite Hout in Hu. injection Hu as <-.
  destruct (expanded_grants app r) as (_ & -> & _). split.
  - intros g Hg. by apply listPermissionsMap_distinct.
  - intros k Hk. by apply listPermissionsMap_absent.
Qed.

Lemma getUsers_distinct_grants_witness :
  ∃ u, fst (fst (Core.getUsers Sample.app 1 "" "" Sample.start)) = [u]
       ∧ ListPermissionsMap u !! 5 = Some (list_to_set ["list:view"])
       ∧ ListPermissionsMap u !! 6 = None.
Proof.
  exists (expanded Sample.app (scanUser Sample.alice)). split; [reflexivity|].
  destruct (getUsers_distinct_grants Sample.app 1 "" "" [Sample.alice]
              [expanded Sample.app (scanUser Sample.alice)]
              Sample.start (snd (Core.getUsers Sample.app 1 "" "" Sample.start))
              0%nat Sample.alice (expanded Sample.app (scanUser Sample.alice))
              eq_refl eq_refl eq_refl eq_refl) as [Hgrant Hnone].
  - change (grantsOf Sample.app Sample.alice) with [mkListPermission 5 ["list:view"]].
    apply NoDup_cons. split; [apply not_elem_of_nil | apply NoDup_nil_2].
  - split.
    + apply (Hgrant (mkListPermission 5 ["list:view"])). apply list_elem_of_here.
    + apply Hnone.
      change (grantsOf Sample.app Sample.alice) with [mkListPermission 5 ["list:view"]].
      intros Hin. apply list_elem_of_singleton in Hin. discriminate Hin.
Defined.

(** X2.  A successful [getUsers] leaves the clock alone and adds to the
    trace the query followed, in the order of the rows, by one log line for
    each row whose payload the decoder reports an error for -- and nothing
    else: a row without a payload, or with one that decodes, logs nothing. *)
Theorem getUsers_effects (app : App) (id : Z) (username email : string)
    (rows : list userRow) (out : list User) (w w' : world) :
  q_GetUsers app id username email = inl rows →
  Core.getUsers app id username email w = ((out, None), w') →
  now w' = now w
  ∧ trace w'
    = (trace w ++
       EvGetUsers id username email ::
       concat ((λ r,
                  match rowListsPermsRaw r with
                  | Some data =>
                      match snd (json_Unmarshal app data) with
                      | Some e =>
                          [EvLogPrintf
                             "error unmarshalling list permissions for role %d: %v"
                             [ArgInt (rowID r); ArgErr e]]
                      | None => []
                      end
                  | None => []
                  end) <$> rows))%list.
Proof.
  intros Hq Hrun.
  assert (rows ≠ []) as Hne.
  { destruct (getUsers_success_inv app _ _ _ _ _ _ Hrun) as (rows' & Hq' & Hne).
    rewrite Hq in Hq'. by injection Hq' as ->. }
  rewrite (getUsers_run app _ _ _ _ _ Hq Hne) in Hrun.
  injection Hrun as _ <-. split; [reflexivity|]. cbn [trace].
  do 3 f_equal. rewrite <- list_fmap_compose.
  apply list_fmap_ext. intros i r _. apply expandLog_cases.
Qed.

Lemma getUsers_effects_witness :
  trace (snd (Core.getUsers Sample.app 0 "" "" Sample.start))
  = [EvGetUsers 0 "" "";
     EvLogPrintf "error unmarshalling list permissions for role %d: %v"
       [ArgInt 3;
        ArgErr (ErrorString
                  "json: cannot unmarshal string into Go struct field ListPermission.id of type int")];
     EvLogPrintf "error unmarshalling list permissions for role %d: %v"
       [ArgInt 5; ArgErr (ErrorString "unexpected end of JSON input")]].
Proof.
  destruct (getUsers_effects Sample.app 0 "" "" Sample.users
              (fst (fst (Core.getUsers Sample.app 0 "" "" Sample.start)))
              Sample.start (snd (Core.getUsers Sample.app 0 "" "" Sample.start))
              eq_refl eq_refl) as [_ Htrace].
  rewrite Htrace. reflexivity.
Defined.

(** X3.  Whenever [getUsers] returns an error it returns no user, and the
    query is all it has done: nothing was decoded or logged.  The error is
    an InternalServerError (500) when the query failed, and the plain error
    ["user not found"] when it matched no row. *)
Theorem getUsers_error_cases (app : App) (id : Z) (username email : string)
    (out : list User) (e : error) (w w' : world) :
  Core.getUsers app id username email w = ((out, Some e), w') →
  out = []
  ∧ w' = mkWorld (now w) (trace w ++ [EvGetUsers id username email])
  ∧ ((∃ err, q_GetUsers app id username email = inr err
             ∧ e = Core.errorFetchingUsers app err)
     ∨ (q_GetUsers app id username email = inl []
        ∧ e = ErrorString "user not found")).
Proof.
  unfold Core.getUsers, bind at 1, emit.
  destruct (q_GetUsers app id username email) as [rows|err] eqn:Hq.
  - destruct rows as [|r rows].
    + unfold ret. cbn. intros Hrun. injection Hrun as <- <- <-. auto.
    + rewrite map_cons. cbn [length Nat.eqb]. unfold bind at 1.
      rewrite rangeUsers_run. unfold ret. intros Hrun. discriminate Hrun.
  - unfold ret. intros Hrun. injection Hrun as <- <- <-. eauto 6.
Qed.

Lemma getUsers_error_cases_witness :
  Core.getUsers Sample.app 99 "" "" Sample.start
  = (([], Some (ErrorString "user not found")),
     mkWorld 0 [EvGetUsers 99 "" ""]).
Proof.
  destruct (getUsers_error_cases Sample.app 99 "" "" []
              (ErrorString "user not found") Sample.start
              (snd (Core.getUsers Sample.app 99 "" "" Sample.start)) eq_refl)
    as (_ & Hw & _).
  rewrite (surjective_pairing (Core.getUsers Sample.app 99 "" "" Sample.start)).
  rewrite Hw. reflexivity.
Defined.

(** X4.  In every fetched user the role has moved into [Role]: [RoleID] is
    reset to 0, and [Role] carries the stored role id, role name and role
    permissions together with the decoded grants. *)
Theorem getUsers_role_moved (app : App) (id : Z) (username email : string)
    (rows : list userRow) (out : list User) (w w' : world)
    (n : nat) (r : userRow) (u : User) :
  q_GetUsers app id username email = inl rows →
  Core.getUsers app id username email w = ((out, None), w') →
  rows !! n = Some r →
  out !! n = Some u →
  RoleID u = 0
  ∧ roleID (Role u) = rowRoleID r
  ∧ roleName (Role u) = rowRoleName r
  ∧ rolePermissions (Role u) = rowRolePerms r
  ∧ roleLists (Role u) = grantsOf app r
  ∧ PermissionsMap u = list_to_set (rolePermissions (Role u))
  ∧ dom (ListPermissionsMap u) = list_to_set (lpID <$> roleLists (Role u)).
Proof.
  intros Hq Hrun Hr Hu.
  destruct (getUsers_nth app _ _ _ _ _ _ _ n r Hq Hrun Hr) as [Hout _].
  rewrite Hout in Hu. injection Hu as <-.
  destruct (expanded_role app r) as (Hid & Hrole & _).
  destruct (expanded_grants app r) as (_ & Hmap & Hperms).
  rewrite Hrole, Hid, Hmap, Hperms. cbn [roleID roleName rolePermissions roleLists].
  repeat split.
  - apply permissionSet_list_to_set.
  - apply listPermissionsMap_dom.
Qed.

Lemma getUsers_role_moved_witness :
  rowRoleID Sample.alice = 1
  ∧ ∃ u, fst (fst (Core.getUsers Sample.app 1 "" "" Sample.start)) = [u]
         ∧ RoleID u = 0 ∧ roleID (Role u) = 1 ∧ roleName (Role u) = "Managers".
Proof.
  split; [reflexivity|].
  exists (expanded Sample.app (scanUser Sample.alice)). split; [reflexivity|].
  destruct (getUsers_role_moved Sample.app 1 "" "" [Sample.alice]
              [expanded Sample.app (scanUser Sample.alice)]
              Sample.start (snd (Core.getUsers Sample.app 1 "" "" Sample.start))
              0%nat Sample.alice (expanded Sample.app (scanUser Sample.alice))
              eq_refl eq_refl eq_refl eq_refl) as (H0 & Hid & Hname & _).
  auto.
Defined.

(** X5.  [getUsers] hands the stored columns on unchanged: id, username,
    name, type and status, and also the stored password, which it does not
    hide; the email is kept for every user that is not of the machine-token
    type. *)
Theorem getUsers_stored_fields_kept (app : App) (id : Z) (username email : string)
    (rows : list userRow) (out : list User) (w w' : world)
    (n : nat) (r : userRow) (u : User) :
  q_GetUsers app id username email = inl rows →
  Core.getUsers app id username email w = ((out, None), w') →
  rows !! n = Some r →
  out !! n = Some u →
  ID u = rowID r
  ∧ Username u = rowUsername r
  ∧ Name u = rowName r
  ∧ UserType u = rowType r
  ∧ Status u = rowStatus r
  ∧ Password u = rowPassword r
  ∧ (rowType r ≠ UserTypeAPI → Email u = rowEmail r).
Proof.
  intros Hq Hrun Hr Hu.
  destruct (getUsers_nth app _ _ _ _ _ _ _ n r Hq Hrun Hr) as [Hout _].
  rewrite Hout in Hu. injection Hu as <-.
  destruct (expanded_stored_fields app r) as (? & ? & ? & ? & ? & ?).
  repeat split; try assumption.
  intros Htype. rewrite expanded_email.
  destruct (String.eqb_spec (rowType r) UserTypeAPI); [done | reflexivity].
Qed.

Lemma getUsers_stored_fields_kept_witness :
  ∃ u, fst (fst (Core.getUsers Sample.app 1 "" "" Sample.start)) = [u]
       ∧ Password u = mkNullString "$2a$10$N9qo8uLOickgx2ZMRZoMye" true
       ∧ Email u = mkNullString "alice@example.com" true.
Proof.
  exists (expanded Sample.app (scanUser Sample.alice)). split; [reflexivity|].
  destruct (getUsers_stored_fields_kept Sample.app 1 "" "" [Sample.alice]
              [expanded Sample.app (scanUser Sample.alice)]
              Sample.start (snd (Core.getUsers Sample.app 1 "" "" Sample.start))
              0%nat Sample.alice (expanded Sample.app (scanUser Sample.alice))
              eq_refl eq_refl eq_refl eq_refl) as (_ & _ & _ & _ & _ & Hpw & Hemail).
  split; [exact Hpw|]. apply Hemail. discriminate.
Defined.

(** X6.  For a user without a stored password the login-method flag comes
    out as it was stored, and [HasPassword] is false. *)
Theorem getUsers_no_password_keeps_flag (app : App) (id : Z) (username email : string)
    (rows : list userRow) (out : list User) (w w' : world)
    (n : nat) (r : userRow) (u : User) :
  q_GetUsers app id username email = inl rows →
  Core.getUsers app id username email w = ((out, None), w') →
  rows !! n = Some r →
  out !! n = Some u →
  nsString (rowPassword r) = "" →
  HasPassword u = false ∧ PasswordLogin u = rowPasswordLogin r.
Proof.
  intros Hq Hrun Hr Hu Hempty.
  destruct (getUsers_nth app _ _ _ _ _ _ _ n r Hq Hrun Hr) as [Hout _].
  rewrite Hout in Hu. injection Hu as <-.
  destruct (expanded_password app r) as [-> ->].
  rewrite Hempty. auto.
Qed.

Lemma getUsers_no_password_keeps_flag_witness :
  ∃ u, fst (fst (Core.getUsers Sample.app 2 "" "" Sample.start)) = [u]
       ∧ HasPassword u = false ∧ PasswordLogin u = false.
Proof.
  exists (expanded Sample.app (scanUser Sample.bob)). split; [reflexivity|].
  exact (getUsers_no_password_keeps_flag Sample.app 2 "" "" [Sample.bob]
           [expanded Sample.app (scanUser Sample.bob)]
           Sample.start (snd (Core.getUsers Sample.app 2 "" "" Sample.start))
           0%nat Sample.bob (expanded Sample.app (scanUser Sample.bob))
           eq_refl eq_refl eq_refl eq_refl eq_refl).
Defined.

(** ** [GetUser] and [GetUsers] *)

(** X7.  Every error of [GetUser] is an InternalServerError (500), also
    the one for an identifier that matches no user, and it comes with the
    zero user.  On success [GetUser] returns the first user of the fetch
    although every matching row has been expanded. *)
Theorem GetUser_results (app : App) (id : Z) (username email : string) (w : world) :
  (∀ u e, fst (Core.GetUser app id username email w) = Returns (u, Some e) →
          u = userZero ∧ ∃ message, e = HTTPError StatusInternalServerError message)
  ∧ (∀ r rows,
        q_GetUsers app id username (strings_ToLower app email) = inl (r :: rows) →
        fst (Core.GetUser app id username email w)
        = Returns (expanded app (scanUser r), None)
        ∧ trace (snd (Core.GetUser app id username email w))
          = (trace w ++
             EvGetUsers id username (strings_ToLower app email) ::
             concat (expandLog app <$> (scanUser <$> r :: rows)))%list).
Proof.
  split.
  - intros u e. unfold Core.GetUser, bind.
    destruct (Core.getUsers app id username (strings_ToLower app email) w)
      as [[out [err|]] w'] eqn:Hrun; cbn [fst].
    + intros Hret. injection Hret as <- <-. split; [reflexivity|].
      unfold Core.errorFetchingUsers. eauto.
    + destruct out; intros Hret; discriminate Hret.
  - intros r rows Hq. unfold Core.GetUser, bind.
    rewrite (getUsers_run app _ _ _ (r :: rows)) by (exact Hq || discriminate).
    split; reflexivity.
Qed.

Lemma GetUser_results_witness :
  (∃ message,
      fst (Core.GetUser Sample.app 99 "" "" Sample.start)
      = Returns (userZero, Some (HTTPError 500 message)))
  ∧ fst (Core.GetUser Sample.app 0 "" "" Sample.start)
    = Returns (expanded Sample.app (scanUser Sample.alice), None).
Proof.
  destruct (GetUser_results Sample.app 99 "" "" Sample.start) as [Herr _].
  destruct (GetUser_results Sample.app 0 "" "" Sample.start) as [_ Hok].
  split.
  - destruct (Herr userZero
                (Core.errorFetchingUsers Sample.app (ErrorString "user not found"))
                eq_refl) as (_ & message & Hmsg).
    exists message.
    transitivity (Returns (userZero,
                    Some (Core.errorFetchingUsers Sample.app
                            (ErrorString "user not found"))));
      [reflexivity | rewrite Hmsg; reflexivity].
  - exact (proj1 (Hok Sample.alice [Sample.bob; Sample.carol; Sample.bot; Sample.dave]
                    eq_refl)).
Defined.

(** ** [LoginUser] and [doLogin] *)

(** Splits a membership in a trace into its cases, one per event. *)
Ltac in_cases H :=
  repeat first
    [ apply elem_of_app in H as [H|H]
    | apply elem_of_cons in H as [H|H]
    | apply elem_of_nil in H; destruct H ].

Section PasswordLoginRuns.
Variable app : App.

(** [doLogin] case by case. *)
Lemma doLogin_cases (c : Context) (w : world) :
  let username := submittedUsername app c in
  let password := submittedPassword app c in
  let took := Z.of_N (q_LoginUser_took app username password) in
  let ms := Milliseconds took in
  doLogin app c w
  = if negb (strHasLen username 3 (stdInputMaxLen app)) then
      (Some (invalidField app "username"), w)
    else if negb (strHasLen password 8 (stdInputMaxLen app)) then
      (Some (invalidField app "password"), w)
    else
      match q_LoginUser app username password with
      | inr err =>
          (snd (fst (Core.LoginUser app username password w)),
           mkWorld (now w + took) (trace w ++ [EvLoginUser username password]))
      | inl row =>
          (auth_SetSession app (scanUser row) "",
           mkWorld (now w + took + (if (ms <? 100)%Z then ms else 0))
             (trace w ++
              EvLoginUser username password ::
              (if (ms <? 100)%Z then [EvSleep ms] else []) ++
              [EvSetSession (scanUser row) ""]))
      end.
Proof.
  intros username password took ms. unfold doLogin.
  fold (submittedUsername app c). fold (submittedPassword app c).
  fold username. fold password.
  destruct (strHasLen username 3 (stdInputMaxLen app)); cbn [negb]; [|reflexivity].
  destruct (strHasLen password 8 (stdInputMaxLen app)); cbn [negb]; [|reflexivity].
  unfold bind at 1, timeNow. unfold bind at 1.
  unfold Core.LoginUser, bind, emit, elapse, ret, timeNow, setSession. cbn [now trace].
  fold took.
  destruct (q_LoginUser app username password) as [row|[|code msg|text]];
    cbn [fst snd]; try reflexivity.
  cbn [now]. replace (now w + took - now w)%Z with took by lia. fold ms.
  assert (0 ≤ ms)%Z as Hms.
  { unfold ms, Milliseconds. apply Z.quot_pos; unfold took; lia. }
  destruct (ms <? 100)%Z; unfold timeSleep, bind, ret, emit; cbn [now trace].
  - rewrite Z.max_r by exact Hms. rewrite <- !app_assoc. reflexivity.
  - rewrite Z.add_0_r, <- !app_assoc. reflexivity.
Qed.

End PasswordLoginRuns.


Example LoginUser_sample :
  fst (Core.LoginUser Sample.app "alice" "wrong password" Sample.start)
  = fst (Core.LoginUser Sample.app "nobody" "whatever it is" Sample.start).
Proof. reflexivity. Qed.


(** X10.  [doLogin] creates a session only for a user the store has just
    verified: a session it sets carries the empty provider token and the
    user of the row that [LoginUser] found for the trimmed credentials,
    which passed the length checks; and the store is asked for no other
    credentials than the trimmed ones. *)
Theorem doLogin_session_needs_verification (app : App) (c : Context) (w : world) :
  (∀ u token,
      EvSetSession u token ∈ trace (snd (doLogin app c w)) →
      EvSetSession u token ∈ trace w
      ∨ (token = ""
         ∧ strHasLen (submittedUsername app c) 3 (stdInputMaxLen app) = true
         ∧ strHasLen (submittedPassword app c) 8 (stdInputMaxLen app) = true
         ∧ ∃ row, q_LoginUser app (submittedUsername app c) (submittedPassword app c)
                  = inl row
                  ∧ u = scanUser row))
  ∧ (∀ username password,
        EvLoginUser username password ∈ trace (snd (doLogin app c w)) →
        EvLoginUser username password ∈ trace w
        ∨ (username = submittedUsername app c
           ∧ password = submittedPassword app c)).
Proof.
  rewrite doLogin_cases.
  destruct (strHasLen (submittedUsername app c) 3 _); cbn [negb];
    [|cbn [snd]; split; intros; auto].
  destruct (strHasLen (submittedPassword app c) 8 _); cbn [negb];
    [|cbn [snd]; split; intros; auto].
  destruct (q_LoginUser app _ _) as [row|err]; cbn [snd trace]; split.
  - intros u token Hin. destruct (_ <? _)%Z; in_cases Hin; auto;
      try discriminate Hin; injection Hin as -> ->; right; repeat split; eauto.
  - intros username password Hin. destruct (_ <? _)%Z; in_cases Hin; auto;
      try discriminate Hin; injection Hin as -> ->; auto.
  - intros u token Hin. in_cases Hin; auto; discriminate Hin.
  - intros username password Hin. in_cases Hin; auto.
    injection Hin as -> ->. auto.
Qed.

Lemma doLogin_session_needs_verification_witness :
  EvSetSession (scanUser Sample.alice) ""
    ∈ trace (snd (doLogin Sample.app Requests.forgedNonce Sample.start))
  ∧ q_LoginUser Sample.app "alice" "correct horse" = inl Sample.alice.
Proof.
  assert (EvSetSession (scanUser Sample.alice) ""
            ∈ trace (snd (doLogin Sample.app Requests.forgedNonce Sample.start)))
    as Hin.
  { vm_compute. apply list_elem_of_In. right. right. left. reflexivity. }
  split; [exact Hin|].
  destruct (doLogin_session_needs_verification Sample.app Requests.forgedNonce
              Sample.start) as [Hsession _].
  destruct (Hsession _ _ Hin) as [Hold | (_ & _ & _ & row & Hrow & Hu)].
  - inversion Hold.
  - vm_compute in Hrow. injection Hrow as <-. reflexivity.
Defined.

(** ** The login page *)

Section LoginPage.
Variable app : App.

Lemma renderLoginPage_rendered (c : Context) (loginErr : option error) (w : world)
    (filled : nat → byte) :
  rand_Read app 16%nat = inl filled →
  renderLoginPage app c loginErr w
  = (Render StatusOK "admin-login"
       {| Title := i18n_T app "users.login";
          Description := "";
          NextURI := if String.eqb (SanitizeURI app (FormValue c "next")) "/"
                     then uriAdmin app
                     else SanitizeURI app (FormValue c "next");
          Nonce := fst (Utils.GenerateRandomString (rand_Read app) 16);
          PasswordEnabled := true;
          OIDCProvider := fst (providerBadge app);
          OIDCProviderLogo := snd (providerBadge app);
          Error := loginErrorText loginErr |},
     mkWorld (now w)
       (trace w ++
        [EvRandRead 16;
         EvSetCookie (mkCookie "nonce"
                        (fst (Utils.GenerateRandomString (rand_Read app) 16))
                        true "/" SameSiteLaxMode)])).
Proof.
  intros Hrand.
  unfold renderLoginPage, generateRandomString, Utils.GenerateRandomString,
    bind, emit, ret.
  destruct (providerBadge app) as [provider logo]. rewrite Hrand.
  cbn [fst snd now trace]. rewrite <- app_assoc. reflexivity.
Qed.

Lemma renderLoginPage_failed (c : Context) (loginErr : option error) (w : world)
    (err : error) :
  rand_Read app 16%nat = inr err →
  renderLoginPage app c loginErr w
  = (Failed (HTTPError StatusBadRequest (i18n_T app "globals.messages.internalError")),
     mkWorld (now w)
       (trace w ++
        [EvRandRead 16;
         EvLogPrintf "error generating OIDC nonce: %v" [ArgErr err]])).
Proof.
  intros Hrand.
  unfold renderLoginPage, generateRandomString, Utils.GenerateRandomString,
    bind, emit, ret.
  destruct (providerBadge app) as [provider logo]. rewrite Hrand.
  cbn [fst snd now trace]. rewrite <- app_assoc. reflexivity.
Qed.

(** Rendering the page only reads random bytes, logs and sets a cookie. *)
Lemma renderLoginPage_events (c : Context) (loginErr : option error) (w : world)
    (ev : event) :
  ev ∈ trace (snd (renderLoginPage app c loginErr w)) →
  ev ∈ trace w ∨ isPageEvent ev = true.
Proof.
  destruct (rand_Read app 16%nat) as [filled|err] eqn:Hrand.
  - rewrite (renderLoginPage_rendered _ _ _ _ Hrand). cbn [snd trace].
    intros Hin. in_cases Hin; auto; subst ev; auto.
  - rewrite (renderLoginPage_failed _ _ _ _ Hrand). cbn [snd trace].
    intros Hin. in_cases Hin; auto; subst ev; auto.
Qed.

Lemma renderLoginPage_no_redirect (c : Context) (loginErr : option error) (w : world)
    (code : Z) (url : string) :
  fst (renderLoginPage app c loginErr w) ≠ Redirect code url.
Proof.
  destruct (rand_Read app 16%nat) as [filled|err] eqn:Hrand.
  - rewrite (renderLoginPage_rendered _ _ _ _ Hrand). discriminate.
  - rewrite (renderLoginPage_failed _ _ _ _ Hrand). discriminate.
Qed.

Lemma generated_nonce (n : nat) (filled : nat → byte) :
  rand_Read app n = inl filled →
  String.length (fst (Utils.GenerateRandomString (rand_Read app) n)) = n
  ∧ Utils.allInDictionary (fst (Utils.GenerateRandomString (rand_Read app) n)) = true.
Proof.
  intros Hrand. unfold Utils.GenerateRandomString. rewrite Hrand. cbn [fst]. split.
  - rewrite length_string_of_list_ascii, !length_map.
    unfold Utils.indices. apply length_seq.
  - unfold Utils.allInDictionary. rewrite list_ascii_of_string_of_list_ascii.
    apply forallb_forall. intros ch Hin.
    apply in_map_iff in Hin as (v & <- & _). apply dictAt_in_dictionary.
Qed.

End LoginPage.

(** X11.  Whenever the login page is rendered, exactly one cookie is set:
    it is named ["nonce"], is HTTP-only, scoped to the root path and
    same-site lax, and its value is the nonce put into the page, a string of
    16 characters of the alphanumeric dictionary.  The password form is
    always enabled. *)
Theorem renderLoginPage_nonce_cookie (app : App) (c : Context)
    (loginErr : option error) (w : world) (code : Z) (name : string)
    (page : loginTpl) :
  fst (renderLoginPage app c loginErr w) = Render code name page →
  snd (renderLoginPage app c loginErr w)
  = mkWorld (now w)
      (trace w ++
       [EvRandRead 16;
        EvSetCookie (mkCookie "nonce" (Nonce page) true "/" SameSiteLaxMode)])
  ∧ String.length (Nonce page) = 16%nat
  ∧ Utils.allInDictionary (Nonce page) = true
  ∧ PasswordEnabled page = true
  ∧ code = StatusOK.
Proof.
  destruct (rand_Read app 16%nat) as [filled|err] eqn:Hrand.
  - rewrite (renderLoginPage_rendered _ _ _ _ _ Hrand). cbn [fst snd].
    intros Hpage. injection Hpage as <- <- <-. cbn [Nonce PasswordEnabled].
    destruct (generated_nonce app 16 filled Hrand) as [Hlen Hdict]. auto.
  - rewrite (renderLoginPage_failed _ _ _ _ _ Hrand). discriminate.
Qed.

Lemma renderLoginPage_nonce_cookie_witness :
  ∃ page,
    fst (renderLoginPage Sample.app Requests.boundNonce None Sample.start)
    = Render 200 "admin-login" page
    ∧ Nonce page = "BmNyZAlEpQ1cDoHs"
    ∧ trace (snd (renderLoginPage Sample.app Requests.boundNonce None Sample.start))
      = [EvRandRead 16;
         EvSetCookie (mkCookie "nonce" "BmNyZAlEpQ1cDoHs" true "/" "Lax")].
Proof.
  eexists. split; [reflexivity|]. split; [reflexivity|].
  destruct (renderLoginPage_nonce_cookie Sample.app Requests.boundNonce None
              Sample.start _ _ _ eq_refl) as (Hworld & _).
  rewrite Hworld. reflexivity.
Defined.

(** X12.  When the random source fails while the page is rendered, no
    cookie is set and nothing is rendered: the failure is logged and the
    handler returns a BadRequest (400) error, whatever login error the page
    was to show. *)
Theorem renderLoginPage_without_nonce (app : App) (c : Context)
    (loginErr : option error) (w : world) (err : error) :
  rand_Read app 16%nat = inr err →
  fst (renderLoginPage app c loginErr w)
  = Failed (HTTPError StatusBadRequest (i18n_T app "globals.messages.internalError"))
  ∧ trace (snd (renderLoginPage app c loginErr w))
    = (trace w ++
       [EvRandRead 16; EvLogPrintf "error generating OIDC nonce: %v" [ArgErr err]])%list
  ∧ ∀ ck, EvSetCookie ck ∈ trace (snd (renderLoginPage app c loginErr w)) →
          EvSetCookie ck ∈ trace w.
Proof.
  intros Hrand. rewrite (renderLoginPage_failed _ _ _ _ _ Hrand). cbn [fst snd trace].
  repeat split. intros ck Hin. in_cases Hin; auto; discriminate Hin.
Qed.

Lemma renderLoginPage_without_nonce_witness :
  renderLoginPage Sample.appNoEntropy Requests.boundNonce
    (Some (HTTPError 403 "users.invalidLogin")) Sample.start
  = (Failed (HTTPError 400 "globals.messages.internalError"),
     mkWorld 0 [EvRandRead 16;
                EvLogPrintf "error generating OIDC nonce: %v"
                  [ArgErr (ErrorString "entropy source unavailable")]]).
Proof.
  destruct (renderLoginPage_without_nonce Sample.appNoEntropy Requests.boundNonce
              (Some (HTTPError 403 "users.invalidLogin")) Sample.start
              (ErrorString "entropy source unavailable") eq_refl)
    as (Hresp & Htrace & _).
  rewrite (surjective_pairing (renderLoginPage _ _ _ _)), Hresp.
  reflexivity.
Defined.

(** X13.  The next URI of a rendered page is the sanitized [next] form
    value, with the root path replaced by the admin URI: the page never
    points back at the root unless the admin URI itself is the root. *)
Theorem renderLoginPage_next_uri (app : App) (c : Context)
    (loginErr : option error) (w : world) (code : Z) (name : string)
    (page : loginTpl) :
  fst (renderLoginPage app c loginErr w) = Render code name page →
  (SanitizeURI app (FormValue c "next") = "/" → NextURI page = uriAdmin app)
  ∧ (SanitizeURI app (FormValue c "next") ≠ "/" →
     NextURI page = SanitizeURI app (FormValue c "next"))
  ∧ (uriAdmin app ≠ "/" → NextURI page ≠ "/").
Proof.
  destruct (rand_Read app 16%nat) as [filled|err] eqn:Hrand.
  - rewrite (renderLoginPage_rendered _ _ _ _ _ Hrand). cbn [fst].
    intros Hpage. injection Hpage as <- <- <-. cbn [NextURI].
    destruct (String.eqb_spec (SanitizeURI app (FormValue c "next")) "/")
      as [Heq|Hne]; repeat split; intros; auto; congruence.
  - rewrite (renderLoginPage_failed _ _ _ _ _ Hrand). discriminate.
Qed.

Lemma renderLoginPage_next_uri_witness :
  ∃ page,
    fst (renderLoginPage Sample.app Requests.callbackWithoutCookie None Sample.start)
    = Render 200 "admin-login" page
    ∧ SanitizeURI Sample.app (FormValue Requests.callbackWithoutCookie "next") = "/"
    ∧ NextURI page = "/admin".
Proof.
  eexists. split; [reflexivity|]. split; [reflexivity|].
  destruct (renderLoginPage_next_uri Sample.app Requests.callbackWithoutCookie None
              Sample.start _ _ _ eq_refl) as (Hroot & _).
  apply Hroot. reflexivity.
Defined.

(** ** The provider badge *)

Section Badge.

Lemma stringsSplit_nonempty (sep : ascii) (s : string) : stringsSplit sep s ≠ [].
Proof.
  destruct s as [|ch rest]; simpl; [discriminate|].
  destruct (Ascii.eqb ch sep); [discriminate|].
  destruct (stringsSplit sep rest); discriminate.
Qed.

Lemma stringsSplit_no_sep (sep : ascii) (s : string) :
  Utils.inString sep s = false → stringsSplit sep s = [s].
Proof.
  induction s as [|ch rest IH]; simpl; [reflexivity|].
  rewrite (Ascii.eqb_sym sep ch).
  destruct (Ascii.eqb ch sep); [discriminate|].
  intros Hrest. rewrite (IH Hrest). reflexivity.
Qed.

Lemma stringsSplit_app (sep : ascii) (s1 s2 : string) :
  stringsSplit sep (s1 ++ String sep s2)
  = (stringsSplit sep s1 ++ stringsSplit sep s2)%list.
Proof.
  induction s1 as [|ch rest IH]; simpl.
  - rewrite Ascii.eqb_refl. reflexivity.
  - destruct (Ascii.eqb ch sep); [rewrite IH; reflexivity|].
    rewrite IH. pose proof (stringsSplit_nonempty sep rest) as Hne.
    destruct (stringsSplit sep rest) as [|h t]; [done | reflexivity].
Qed.

(** Splitting at the dots gives back the labels a host name is made of. *)
Lemma stringsSplit_concat (labels : list string) :
  labels ≠ [] →
  Forall (λ l, dotFree l = true) labels →
  stringsSplit "." (String.concat "." labels) = labels.
Proof.
  induction labels as [|l labels IH]; [done|]. intros _ Hfree.
  apply Forall_cons in Hfree as [Hl Hrest].
  apply negb_true_iff in Hl.
  destruct labels as [|l' labels].
  - simpl. by apply stringsSplit_no_sep.
  - change (String.concat "." (l :: l' :: labels))
      with (l ++ String "." (String.concat "." (l' :: labels))).
    rewrite stringsSplit_app, stringsSplit_no_sep by exact Hl.
    rewrite IH by (done || exact Hrest). reflexivity.
Qed.

Lemma oidcProviders_known (p : string) :
  is_Some (oidcProviders !! p)
  ↔ p ∈ ["google.com"; "microsoftonline.com"; "auth0.com"; "github.com"].
Proof.
  unfold oidcProviders. rewrite <- elem_of_dom, !dom_insert_L, dom_empty_L.
  set_solver.
Qed.

End Badge.

(** X14.  With federated login disabled the page shows no provider and no
    logo.  With it enabled the logo is the provider's own, its root domain
    followed by [.png], exactly when that root domain is one of
    [google.com], [microsoftonline.com], [auth0.com] and [github.com];
    for any other provider, and when the provider URL does not parse, it is
    the generic [oidc.png]. *)
Theorem providerBadge_logo (app : App) :
  (oidcEnabled app = false → providerBadge app = ("", ""))
  ∧ (oidcEnabled app = true →
     (∀ err, url_Hostname app (oidcProviderURL app) = inr err →
             providerBadge app = ("", "oidc.png"))
     ∧ (∀ hostname, url_Hostname app (oidcProviderURL app) = inl hostname →
          snd (providerBadge app)
          = if bool_decide (fst (providerBadge app)
                              ∈ ["google.com"; "microsoftonline.com";
                                 "auth0.com"; "github.com"])
            then fst (providerBadge app) ++ ".png"
            else "oidc.png")).
Proof.
  unfold providerBadge. split.
  - intros ->. reflexivity.
  - intros ->. split.
    + intros err ->. reflexivity.
    + intros hostname ->.
      set (provider := if (2 <=? _)%nat then _ else hostname).
      destruct (oidcProviders !! provider) as [known|] eqn:Hlookup; cbn [fst snd].
      * rewrite bool_decide_eq_true_2; [reflexivity|].
        apply oidcProviders_known. eauto.
      * rewrite bool_decide_eq_false_2; [reflexivity|].
        rewrite <- oidcProviders_known, Hlookup. by intros [? ?].
Qed.

Lemma providerBadge_logo_witness :
  providerBadge Sample.app = ("google.com", "google.com.png").
Proof.
  destruct (providerBadge_logo Sample.app) as [_ Henabled].
  destruct (Henabled eq_refl) as [_ Hlogo].
  specialize (Hlogo "accounts.google.com" eq_refl).
  reflexivity.
Defined.

(** X15.  The provider shown is the root domain of the provider's host
    name: its last two labels joined by a dot when the host name has two
    labels or more, and the host name itself when it has no dot. *)
Theorem providerBadge_root_domain (app : App) (hostname : string) :
  oidcEnabled app = true →
  url_Hostname app (oidcProviderURL app) = inl hostname →
  (∀ labels a b,
      hostname = String.concat "." (labels ++ [a; b]) →
      Forall (λ l, dotFree l = true) (labels ++ [a; b]) →
      fst (providerBadge app) = a ++ "." ++ b)
  ∧ (dotFree hostname = true → fst (providerBadge app) = hostname).
Proof.
  intros Henabled Hhost. unfold providerBadge. rewrite Henabled, Hhost. split.
  - intros labels a b -> Hfree.
    rewrite stringsSplit_concat by (exact Hfree || by destruct labels).
    rewrite length_app. cbn [length].
    replace (2 <=? length labels + 2)%nat with true
      by (symmetry; apply Nat.leb_le; lia).
    replace (length labels + 2 - 2)%nat with (length labels + 0)%nat by lia.
    replace (length labels + 2 - 1)%nat with (length labels + 1)%nat by lia.
    rewrite !app_nth2_plus. cbn [nth].
    destruct (oidcProviders !! _); reflexivity.
  - intros Hfree. apply negb_true_iff in Hfree.
    rewrite stringsSplit_no_sep by exact Hfree. cbn [length Nat.leb].
    destruct (oidcProviders !! _); reflexivity.
Qed.

Lemma providerBadge_root_domain_witness :
  url_Hostname Sample.app (oidcProviderURL Sample.app) = inl "accounts.google.com"
  ∧ fst (providerBadge Sample.app) = "google.com".
Proof.
  split; [reflexivity|].
  destruct (providerBadge_root_domain Sample.app "accounts.google.com"
              eq_refl eq_refl) as [Hroot _].
  apply (Hroot ["accounts"] "google" "com"); [reflexivity|].
  repeat constructor.
Defined.

(** ** [handleLoginPage] *)

(** X16.  A request that is not a POST only renders the login page, without
    an error: it is never redirected, and the store and the session
    manager are left alone -- all it does is read random bytes, set the
    nonce cookie and, at most, log. *)
Theorem handleLoginPage_get (app : App) (c : Context) (w : world) :
  Method c ≠ "POST" →
  (∀ code url, fst (handleLoginPage app c w) ≠ Redirect code url)
  ∧ (∀ code name page,
        fst (handleLoginPage app c w) = Render code name page → Error page = "")
  ∧ (∀ ev, ev ∈ trace (snd (handleLoginPage app c w)) →
           ev ∈ trace w ∨ isPageEvent ev = true).
Proof.
  intros Hget. unfold handleLoginPage.
  destruct (String.eqb_spec (Method c) "POST") as [Hpost|_]; [done|].
  split; [|split].
  - intros code url. apply renderLoginPage_no_redirect.
  - intros code name page.
    destruct (rand_Read app 16%nat) as [filled|err] eqn:Hrand.
    + rewrite (renderLoginPage_rendered _ _ _ _ _ Hrand). cbn [fst].
      intros Hpage. injection Hpage as <- <- <-. reflexivity.
    + rewrite (renderLoginPage_failed _ _ _ _ _ Hrand). discriminate.
  - intros ev. apply renderLoginPage_events.
Qed.

Lemma handleLoginPage_get_witness :
  Method Requests.callbackWithoutCookie = "GET"
  ∧ ∃ page,
      fst (handleLoginPage Sample.app Requests.callbackWithoutCookie Sample.start)
      = Render 200 "admin-login" page
      ∧ Error page = "".
Proof.
  split; [reflexivity|]. eexists. split; [reflexivity|].
  destruct (handleLoginPage_get Sample.app Requests.callbackWithoutCookie Sample.start)
    as (_ & Herror & _); [discriminate|].
  exact (Herror _ _ _ eq_refl).
Defined.

(** X17.  A POST is redirected exactly when [doLogin] returns no error, and
    then to the sanitized [next] form value, with status 302 and without a
    new nonce cookie; when [doLogin] returns an error the login page is
    rendered in the world [doLogin] left, with that error. *)
Theorem handleLoginPage_post (app : App) (c : Context) (w : world) :
  Method c = "POST" →
  (fst (doLogin app c w) = None →
   handleLoginPage app c w
   = (Redirect StatusFound (SanitizeURI app (FormValue c "next")),
      snd (doLogin app c w)))
  ∧ (∀ e, fst (doLogin app c w) = Some e →
          handleLoginPage app c w
          = renderLoginPage app c (Some e) (snd (doLogin app c w)))
  ∧ (∀ code url,
        fst (handleLoginPage app c w) = Redirect code url →
        fst (doLogin app c w) = None).
Proof.
  intros Hpost. unfold handleLoginPage. rewrite Hpost, String.eqb_refl.
  unfold bind. destruct (doLogin app c w) as [[e|] w1]; cbn [fst snd].
  - split; [discriminate|]. split.
    + intros e' He. injection He as <-. reflexivity.
    + intros code url Hredirect.
      by apply renderLoginPage_no_redirect in Hredirect.
  - split; [reflexivity|]. split; [discriminate | reflexivity].
Qed.

Lemma handleLoginPage_post_witness :
  fst (handleLoginPage Sample.app Requests.forgedNonce Sample.start)
  = Redirect 302 "/"
  ∧ ∃ page,
      fst (handleLoginPage Sample.app Requests.wrongPassword Sample.start)
      = Render 200 "admin-login" page
      ∧ Error page = "users.invalidLogin".
Proof.
  split.
  - destruct (handleLoginPage_post Sample.app Requests.forgedNonce Sample.start
                eq_refl) as (Hok & _).
    rewrite (Hok eq_refl). reflexivity.
  - destruct (handleLoginPage_post Sample.app Requests.wrongPassword Sample.start
                eq_refl) as (_ & Hfail & _).
    rewrite (Hfail (HTTPError 403 "users.invalidLogin") eq_refl).
    eexists. split; reflexivity.
Defined.

(** ** Federated login *)

(** X18.  With a bound nonce [handleOIDCLogin] redirects, with status 302,
    to the provider URL built from the cookie's nonce and the sanitized
    [next] form value, the root path being replaced by the admin URI.
    Whatever the request, the handler changes nothing: it sets no cookie
    and calls neither the store nor the session manager. *)
Theorem handleOIDCLogin_redirect (app : App) (c : Context) (w : world) :
  snd (handleOIDCLogin app c w) = w
  ∧ (∀ nonce,
        CookieValue c "nonce" = Some nonce → nonce ≠ "" →
        nonce = FormValue c "nonce" →
        fst (handleOIDCLogin app c w)
        = Redirect StatusFound
            (auth_GetOIDCAuthURL app
               (if String.eqb (SanitizeURI app (FormValue c "next")) "/"
                then uriAdmin app
                else SanitizeURI app (FormValue c "next"))
               nonce)).
Proof.
  unfold handleOIDCLogin. split.
  - destruct (CookieValue c "nonce") as [nonce|]; [|reflexivity].
    destruct (String.eqb nonce "" || negb (String.eqb nonce (FormValue c "nonce")));
      reflexivity.
  - intros nonce -> Hne Heq. rewrite <- Heq, String.eqb_refl.
    destruct (String.eqb_spec nonce "") as [->|_]; [done | reflexivity].
Qed.

Lemma handleOIDCLogin_redirect_witness :
  handleOIDCLogin Sample.app
    (Sample.request "POST" [("next", "/"); ("nonce", "abc")] [] (Some "abc"))
    Sample.start
  = (Redirect 302
       "https://accounts.google.com/o/oauth2/auth?state=/admin&nonce=abc",
     Sample.start).
Proof.
  destruct (handleOIDCLogin_redirect Sample.app
              (Sample.request "POST" [("next", "/"); ("nonce", "abc")] [] (Some "abc"))
              Sample.start) as [Hworld Hredirect].
  rewrite (surjective_pairing (handleOIDCLogin _ _ _)), Hworld.
  rewrite (Hredirect "abc" eq_refl ltac:(discriminate) eq_refl). reflexivity.
Defined.

Section CompletionRuns.
Variable app : App.

Lemma expandLog_logs (u : User) : Forall isLog (expandLog app u).
Proof.
  unfold expandLog, Core.expandUser, Core.unmarshalListPerms, bind, ret, emit.
  destruct (ListsPermsRaw u) as [data|]; cbn; [|constructor].
  destruct (json_Unmarshal app data) as [listPerms [e|]]; cbn.
  - repeat constructor. unfold isLog. eauto.
  - constructor.
Qed.

(** A fetch adds to the trace its query and then log lines only. *)
Lemma getUsers_trace (id : Z) (username email : string) (w : world) :
  ∃ logs,
    snd (Core.getUsers app id username email w)
    = mkWorld (now w) (trace w ++ EvGetUsers id username email :: logs)
    ∧ Forall isLog logs.
Proof.
  destruct (q_GetUsers app id username email) as [rows|err] eqn:Hq.
  - destruct rows as [|r rows].
    + exists []. split; [|constructor].
      unfold Core.getUsers, bind, emit, ret. rewrite Hq. reflexivity.
    + rewrite (getUsers_run app _ _ _ (r :: rows)) by (exact Hq || discriminate).
      eexists. split; [reflexivity|].
      apply Forall_concat, Forall_fmap, Forall_forall.
      intros u _. apply expandLog_logs.
  - exists []. split; [|constructor].
    unfold Core.getUsers, bind, emit, ret. rewrite Hq. reflexivity.
Qed.

Lemma GetUser_trace (id : Z) (username email : string) (w : world) :
  ∃ logs,
    snd (Core.GetUser app id username email w)
    = mkWorld (now w)
        (trace w ++ EvGetUsers id username (strings_ToLower app email) :: logs)
    ∧ Forall isLog logs.
Proof.
  destruct (getUsers_trace id username (strings_ToLower app email) w)
    as (logs & Hsnd & Hlogs).
  exists logs. split; [|exact Hlogs].
  unfold Core.GetUser, bind.
  destruct (Core.getUsers app id username (strings_ToLower app email) w)
    as [[out err] w']. cbn [snd] in Hsnd. subst w'.
  destruct err as [e|]; [reflexivity|]. destruct out; reflexivity.
Qed.

(** The run of [handleOIDCFinish], step by step. *)
Lemma handleOIDCFinish_steps (c : Context) (w : world) :
  ((CookieValue c "nonce" = None ∨ CookieValue c "nonce" = Some "")
   ∧ handleOIDCFinish app c w = renderLoginPage app c (Some (invalidRequest app)) w)
  ∨ ∃ nonce w1,
      CookieValue c "nonce" = Some nonce ∧ nonce ≠ ""
      ∧ w1 = mkWorld (now w)
               (trace w ++ [EvExchangeOIDCToken (QueryParam c "code") nonce])
      ∧ ((∃ err,
             auth_ExchangeOIDCToken app (QueryParam c "code") nonce = inr err
             ∧ handleOIDCFinish app c w = renderLoginPage app c (Some err) w1)
         ∨ ∃ token claims user fetchErr logs w2,
             auth_ExchangeOIDCToken app (QueryParam c "code") nonce
             = inl (token, claims)
             ∧ fetchedByEmail app (claimEmail claims) = Returns (user, fetchErr)
             ∧ Forall isLog logs
             ∧ w2 = mkWorld (now w)
                      (trace w1 ++
                       EvGetUsers 0 "" (strings_ToLower app (claimEmail claims))
                       :: logs)
             ∧ ((∃ err, fetchErr = Some err
                        ∧ handleOIDCFinish app c w
                          = renderLoginPage app c (Some err) w2)
                ∨ (fetchErr = None
                   ∧ ∃ w3,
                       w3 = mkWorld (now w)
                              (trace w2 ++
                               [EvUpdateUserLogin (ID user) (claimPicture claims)])
                       ∧ ((∃ err,
                              q_UpdateUserLogin app (ID user) (claimPicture claims)
                              = Some err
                              ∧ handleOIDCFinish app c w
                                = renderLoginPage app c
                                    (Some (Core.errorUpdatingUser app err)) w3)
                          ∨ (q_UpdateUserLogin app (ID user) (claimPicture claims)
                             = None
                             ∧ ∃ w4,
                                 w4 = mkWorld (now w)
                                        (trace w3 ++ [EvSetSession user token])
                                 ∧ ((∃ err,
                                        auth_SetSession app user token = Some err
                                        ∧ handleOIDCFinish app c w
                                          = renderLoginPage app c (Some err) w4)
                                    ∨ (auth_SetSession app user token = None
                                       ∧ handleOIDCFinish app c w
                                         = (Redirect StatusFound
                                              (SanitizeURI app (QueryParam c "state")),
                                            w4)))))))).
Proof.
  unfold handleOIDCFinish.
  destruct (CookieValue c "nonce") as [nonce|] eqn:Hcookie; [|left; auto].
  destruct (String.eqb_spec nonce "") as [->|Hne]; [left; auto|].
  right. eexists nonce, _. split; [reflexivity|]. split; [exact Hne|].
  split; [reflexivity|].
  unfold exchangeOIDCToken, setSession, Core.UpdateUserLogin, bind, emit, ret.
  cbn [now trace].
  destruct (auth_ExchangeOIDCToken app (QueryParam c "code") nonce)
    as [[token claims]|err] eqn:Hexchange; [|left; eauto].
  right.
  match goal with
  | |- context [Core.GetUser app 0 "" (claimEmail claims) ?w1] =>
      pose proof (GetUser_result_any_world app (claimEmail claims) w1) as Hfetch;
      destruct (GetUser_trace 0 "" (claimEmail claims) w1) as (logs & Hsnd & Hlogs);
      destruct (Core.GetUser app 0 "" (claimEmail claims) w1) as [fetched w2]
  end.
  cbn [fst] in Hfetch. cbn [snd now trace] in Hsnd.
  destruct (fetchedByEmail_returns app (claimEmail claims)) as (user & fetchErr & Hret).
  rewrite Hret in Hfetch. subst fetched w2.
  exists token, claims, user, fetchErr, logs. eexists.
  split; [reflexivity|]. split; [exact Hret|]. split; [exact Hlogs|].
  split; [reflexivity|].
  destruct fetchErr as [err|]; [left; eauto|].
  right. split; [reflexivity|]. eexists. split; [reflexivity|]. cbn [now trace].
  destruct (q_UpdateUserLogin app (ID user) (claimPicture claims)) as [err|];
    [left; eauto|].
  right. split; [reflexivity|]. eexists. split; [reflexivity|]. cbn [now trace].
  destruct (auth_SetSession app user token) as [err|]; [left; eauto | right; auto].
Qed.

End CompletionRuns.

(** Decides what an event found after a page was rendered can be. *)
Ltac after_render H :=
  apply renderLoginPage_events in H as [H|H]; [|discriminate H].

Ltac not_a_log Hlogs H :=
  let Hl := fresh in
  pose proof (proj1 (Forall_forall _ _) Hlogs _ H) as Hl;
  destruct Hl as (? & ? & Hl); discriminate Hl.

(** X19.  Without a nonce cookie, or with an empty one, the completion of a
    federated login contacts nobody: the identity provider is not asked to
    exchange the code, no user is looked up or updated and no session is
    created; the handler only renders the login page. *)
Theorem handleOIDCFinish_without_nonce (app : App) (c : Context) (w : world) :
  CookieValue c "nonce" = None ∨ CookieValue c "nonce" = Some "" →
  handleOIDCFinish app c w
  = renderLoginPage app c
      (Some (HTTPError StatusUnauthorized (i18n_T app "users.invalidRequest"))) w
  ∧ ∀ ev, ev ∈ trace (snd (handleOIDCFinish app c w)) →
          ev ∈ trace w ∨ isPageEvent ev = true.
Proof.
  intros Hcookie.
  assert (handleOIDCFinish app c w
          = renderLoginPage app c (Some (invalidRequest app)) w) as Hrun.
  { unfold handleOIDCFinish. destruct Hcookie as [-> | ->]; reflexivity. }
  split; [exact Hrun|]. rewrite Hrun. intros ev. apply renderLoginPage_events.
Qed.

Lemma handleOIDCFinish_without_nonce_witness :
  trace (snd (handleOIDCFinish Sample.app Requests.callbackWithoutCookie Sample.start))
  = [EvRandRead 16;
     EvSetCookie (mkCookie "nonce" "BmNyZAlEpQ1cDoHs" true "/" "Lax")].
Proof.
  destruct (handleOIDCFinish_without_nonce Sample.app Requests.callbackWithoutCookie
              Sample.start (or_introl eq_refl)) as [Hrun _].
  rewrite Hrun. reflexivity.
Defined.

(** X20.  The completion of a federated login writes only for a verified
    identity.  A last-login update it makes is for the user found by the
    e-mail of the claims the provider returned, with the picture of those
    claims; a session it creates is for that user and carries the
    provider's token, and is created only after that update succeeded. *)
Theorem handleOIDCFinish_writes_verified (app : App) (c : Context) (w : world) :
  (∀ id avatar,
      EvUpdateUserLogin id avatar ∈ trace (snd (handleOIDCFinish app c w)) →
      EvUpdateUserLogin id avatar ∈ trace w
      ∨ ∃ nonce token claims user,
          CookieValue c "nonce" = Some nonce ∧ nonce ≠ ""
          ∧ auth_ExchangeOIDCToken app (QueryParam c "code") nonce
            = inl (token, claims)
          ∧ fetchedByEmail app (claimEmail claims) = Returns (user, None)
          ∧ id = ID user ∧ avatar = claimPicture claims)
  ∧ (∀ user token,
        EvSetSession user token ∈ trace (snd (handleOIDCFinish app c w)) →
        EvSetSession user token ∈ trace w
        ∨ ∃ nonce claims,
            CookieValue c "nonce" = Some nonce ∧ nonce ≠ ""
            ∧ auth_ExchangeOIDCToken app (QueryParam c "code") nonce
              = inl (token, claims)
            ∧ fetchedByEmail app (claimEmail claims) = Returns (user, None)
            ∧ q_UpdateUserLogin app (ID user) (claimPicture claims) = None).
Proof.
  destruct (handleOIDCFinish_steps app c w)
    as [[_ Hrun] | (nonce & w1 & Hcookie & Hne & -> & Hsteps)].
  { rewrite Hrun. split; intros ? ? Hin; after_render Hin; auto. }
  destruct Hsteps as [(err & _ & Hrun) |
                      (token & claims & user & fetchErr & logs & w2 & Hexchange
                       & Hfetch & Hlogs & -> & Hsteps)].
  { rewrite Hrun. split; intros ? ? Hin; after_render Hin; cbn [trace] in Hin;
      in_cases Hin; auto; discriminate Hin. }
  destruct Hsteps as [(err & -> & Hrun) | (-> & w3 & -> & Hsteps)].
  { rewrite Hrun. split; intros ? ? Hin; after_render Hin; cbn [trace] in Hin;
      in_cases Hin; auto; try discriminate Hin; not_a_log Hlogs Hin. }
  destruct Hsteps as [(err & _ & Hrun) | (Hupdate & w4 & -> & Hsteps)].
  { rewrite Hrun. split; intros ? ? Hin; after_render Hin; cbn [trace] in Hin;
      in_cases Hin; auto; try discriminate Hin; try not_a_log Hlogs Hin.
    injection Hin as -> ->. right. exists nonce, token, claims, user. auto 10. }
  destruct Hsteps as [(err & _ & Hrun) | (_ & Hrun)]; rewrite Hrun.
  - split; intros ? ? Hin; after_render Hin; cbn [trace] in Hin;
      in_cases Hin; auto; try discriminate Hin; try not_a_log Hlogs Hin.
    + injection Hin as -> ->. right. exists nonce, token, claims, user. auto 10.
    + injection Hin as -> ->. right. exists nonce, claims. auto 10.
  - split; intros ? ? Hin; cbn [snd trace] in Hin;
      in_cases Hin; auto; try discriminate Hin; try not_a_log Hlogs Hin.
    + injection Hin as -> ->. right. exists nonce, token, claims, user. auto 10.
    + injection Hin as -> ->. right. exists nonce, claims. auto 10.
Qed.

Lemma handleOIDCFinish_writes_verified_witness :
  EvSetSession (expanded Sample.app (scanUser Sample.alice)) "id-token"
    ∈ trace (snd (handleOIDCFinish Sample.app (Requests.callback "good-code")
                    Sample.start))
  ∧ auth_ExchangeOIDCToken Sample.app "good-code" "abc"
    = inl ("id-token", mkClaims "Alice@Example.com" "https://img.example.com/a.png").
Proof.
  assert (EvSetSession (expanded Sample.app (scanUser Sample.alice)) "id-token"
            ∈ trace (snd (handleOIDCFinish Sample.app (Requests.callback "good-code")
                            Sample.start))) as Hin.
  { apply list_elem_of_In. vm_compute. do 3 right. left. reflexivity. }
  split; [exact Hin|].
  destruct (handleOIDCFinish_writes_verified Sample.app (Requests.callback "good-code")
              Sample.start) as [_ Hsession].
  destruct (Hsession _ _ Hin) as [Hold | (nonce & claims & Hcookie & _ & Hexchange & _)].
  - inversion Hold.
  - vm_compute in Hcookie. injection Hcookie as <-. reflexivity.
Defined.

(** X21.  The completion of a federated login asks the identity provider
    only to exchange the [code] query parameter together with the nonce of
    the cookie, and looks a user up only by the lower-cased e-mail of the
    claims the provider returned -- never by id or username. *)
Theorem handleOIDCFinish_asks (app : App) (c : Context) (w : world) :
  (∀ code nonce,
      EvExchangeOIDCToken code nonce ∈ trace (snd (handleOIDCFinish app c w)) →
      EvExchangeOIDCToken code nonce ∈ trace w
      ∨ (code = QueryParam c "code"
         ∧ CookieValue c "nonce" = Some nonce ∧ nonce ≠ ""))
  ∧ (∀ id username email,
        EvGetUsers id username email ∈ trace (snd (handleOIDCFinish app c w)) →
        EvGetUsers id username email ∈ trace w
        ∨ (id = 0 ∧ username = ""
           ∧ ∃ nonce token claims,
               CookieValue c "nonce" = Some nonce
               ∧ auth_ExchangeOIDCToken app (QueryParam c "code") nonce
                 = inl (token, claims)
               ∧ email = strings_ToLower app (claimEmail claims))).
Proof.
  destruct (handleOIDCFinish_steps app c w)
    as [[_ Hrun] | (nonce & w1 & Hcookie & Hne & -> & Hsteps)].
  { rewrite Hrun. split; intros; match goal with H : _ ∈ _ |- _ =>
      after_render H; auto end. }
  destruct Hsteps as [(err & _ & Hrun) |
                      (token & claims & user & fetchErr & logs & w2 & Hexchange
                       & Hfetch & Hlogs & -> & Hsteps)].
  { rewrite Hrun. split; intros; match goal with H : _ ∈ _ |- _ =>
      after_render H; cbn [trace] in H; in_cases H; auto;
      try discriminate H; injection H as -> ->; auto end. }
  assert (∀ ev : event,
            ev ∈ ((trace w ++ [EvExchangeOIDCToken (QueryParam c "code") nonce]) ++
                  EvGetUsers 0 "" (strings_ToLower app (claimEmail claims))
                  :: logs)%list →
            ev ∈ trace w
            ∨ ev = EvExchangeOIDCToken (QueryParam c "code") nonce
            ∨ ev = EvGetUsers 0 "" (strings_ToLower app (claimEmail claims))
            ∨ isLog ev) as Hprefix.
  { intros ev Hin. in_cases Hin; auto.
    do 3 right. exact (proj1 (Forall_forall _ _) Hlogs _ Hin). }
  assert (∀ ev,
            ev ∈ trace (snd (handleOIDCFinish app c w)) →
            ev ∈ trace w
            ∨ ev = EvExchangeOIDCToken (QueryParam c "code") nonce
            ∨ ev = EvGetUsers 0 "" (strings_ToLower app (claimEmail claims))
            ∨ isLog ev
            ∨ isPageEvent ev = true
            ∨ (∃ id avatar, ev = EvUpdateUserLogin id avatar)
            ∨ (∃ u tok, ev = EvSetSession u tok)) as Hall.
  { intros ev Hin.
    destruct Hsteps as [(err & -> & Hrun) | (-> & w3 & -> & Hsteps)].
    { rewrite Hrun in Hin. apply renderLoginPage_events in Hin as [Hin|Hin]; [|auto 10].
      cbn [trace] in Hin. apply Hprefix in Hin. intuition. }
    destruct Hsteps as [(err & _ & Hrun) | (Hupdate & w4 & -> & Hsteps)].
    { rewrite Hrun in Hin. apply renderLoginPage_events in Hin as [Hin|Hin]; [|auto 10].
      cbn [trace] in Hin. apply elem_of_app in Hin as [Hin|Hin].
      - apply Hprefix in Hin. intuition.
      - apply list_elem_of_singleton in Hin. eauto 12. }
    destruct Hsteps as [(err & _ & Hrun) | (_ & Hrun)]; rewrite Hrun in Hin.
    - apply renderLoginPage_events in Hin as [Hin|Hin]; [|auto 10].
      cbn [trace] in Hin. apply elem_of_app in Hin as [Hin|Hin];
        [apply elem_of_app in Hin as [Hin|Hin]|].
      + apply Hprefix in Hin. intuition.
      + apply list_elem_of_singleton in Hin. eauto 12.
      + apply list_elem_of_singleton in Hin. eauto 12.
    - cbn [snd trace] in Hin. apply elem_of_app in Hin as [Hin|Hin];
        [apply elem_of_app in Hin as [Hin|Hin]|].
      + apply Hprefix in Hin. intuition.
      + apply list_elem_of_singleton in Hin. eauto 12.
      + apply list_elem_of_singleton in Hin. eauto 12. }
  split.
  - intros code nonce' Hin.
    destruct (Hall _ Hin)
      as [H|[H|[H|[(? & ? & H)|[H|[(? & ? & H)|(? & ? & H)]]]]]];
      auto; try discriminate H.
    injection H as -> ->. auto.
  - intros id username email Hin.
    destruct (Hall _ Hin)
      as [H|[H|[H|[(? & ? & H)|[H|[(? & ? & H)|(? & ? & H)]]]]]];
      auto; try discriminate H.
    injection H as -> -> ->. right. split; [reflexivity|]. split; [reflexivity|].
    exists nonce, token, claims. auto.
Qed.

Lemma handleOIDCFinish_asks_witness :
  EvGetUsers 0 "" "alice@example.com"
    ∈ trace (snd (handleOIDCFinish Sample.app (Requests.callback "good-code")
                    Sample.start))
  ∧ strings_ToLower Sample.app "Alice@Example.com" = "alice@example.com".
Proof.
  assert (EvGetUsers 0 "" "alice@example.com"
            ∈ trace (snd (handleOIDCFinish Sample.app (Requests.callback "good-code")
                            Sample.start))) as Hin.
  { apply list_elem_of_In. vm_compute. right. left. reflexivity. }
  split; [exact Hin|].
  destruct (handleOIDCFinish_asks Sample.app (Requests.callback "good-code")
              Sample.start) as [_ Hlookup].
  destruct (Hlookup _ _ _ Hin)
    as [Hold | (_ & _ & nonce & token & claims & Hcookie & Hexchange & Hemail)].
  - inversion Hold.
  - reflexivity.
Defined.

(** X22.  When every step of the completion succeeds, the handler has
    exchanged the code, looked the user up, updated the last login of the
    first matching user and created the session, in this order, and
    redirects; it sets no cookie, so the nonce cookie of the login page
    stays as it is. *)
Theorem handleOIDCFinish_success_run (app : App) (c : Context) (w : world)
    (nonce token : string) (claims : oidcClaims) (r : userRow) (rows : list userRow) :
  CookieValue c "nonce" = Some nonce →
  nonce ≠ "" →
  auth_ExchangeOIDCToken app (QueryParam c "code") nonce = inl (token, claims) →
  q_GetUsers app 0 "" (strings_ToLower app (claimEmail claims)) = inl (r :: rows) →
  q_UpdateUserLogin app (rowID r) (claimPicture claims) = None →
  auth_SetSession app (expanded app (scanUser r)) token = None →
  handleOIDCFinish app c w
  = (Redirect StatusFound (SanitizeURI app (QueryParam c "state")),
     mkWorld (now w)
       (trace w ++
        EvExchangeOIDCToken (QueryParam c "code") nonce ::
        EvGetUsers 0 "" (strings_ToLower app (claimEmail claims)) ::
        concat (expandLog app <$> (scanUser <$> r :: rows)) ++
        [EvUpdateUserLogin (rowID r) (claimPicture claims);
         EvSetSession (expanded app (scanUser r)) token]))
  ∧ ∀ ck, EvSetCookie ck ∈ trace (snd (handleOIDCFinish app c w)) →
          EvSetCookie ck ∈ trace w.
Proof.
  intros Hcookie Hne Hexchange Hq Hupdate Hsession.
  assert (ID (expanded app (scanUser r)) = rowID r) as Hid
    by apply (expanded_stored_fields app r).
  assert (handleOIDCFinish app c w
          = (Redirect StatusFound (SanitizeURI app (QueryParam c "state")),
             mkWorld (now w)
               (trace w ++
                EvExchangeOIDCToken (QueryParam c "code") nonce ::
                EvGetUsers 0 "" (strings_ToLower app (claimEmail claims)) ::
                concat (expandLog app <$> (scanUser <$> r :: rows)) ++
                [EvUpdateUserLogin (rowID r) (claimPicture claims);
                 EvSetSession (expanded app (scanUser r)) token]))) as Hrun.
  { unfold handleOIDCFinish. rewrite Hcookie.
    destruct (String.eqb_spec nonce "") as [->|_]; [done|].
    unfold exchangeOIDCToken, bind at 1, bind at 1, emit, ret.
    rewrite Hexchange. unfold bind at 1, Core.GetUser, bind at 1.
    rewrite (getUsers_run app _ _ _ (r :: rows)) by (exact Hq || discriminate).
    rewrite !fmap_cons.
    unfold Core.UpdateUserLogin, setSession, bind, emit, ret. cbv beta iota.
    rewrite Hid, Hupdate. cbv beta iota. rewrite Hsession.
    cbn [now trace]. rewrite <- !app_assoc. cbn [now trace List.app]. reflexivity. }
  split; [exact Hrun|]. rewrite Hrun. cbn [snd trace].
  intros ck Hin.
  apply elem_of_app in Hin as [Hin|Hin]; [auto|].
  apply elem_of_cons in Hin as [Hin|Hin]; [discriminate Hin|].
  apply elem_of_cons in Hin as [Hin|Hin]; [discriminate Hin|].
  apply elem_of_app in Hin as [Hin|Hin];
    [|in_cases Hin; discriminate Hin].
  apply list_elem_of_In, in_concat in Hin as (logs & Hlogs & Hin).
  apply list_elem_of_In, list_elem_of_fmap in Hlogs as (u & -> & _).
  pose proof (expandLog_logs app u) as Hall.
  apply list_elem_of_In in Hin.
  destruct (proj1 (Forall_forall _ _) Hall _ Hin) as (? & ? & Hlog).
  discriminate Hlog.
Qed.

Lemma handleOIDCFinish_success_run_witness :
  handleOIDCFinish Sample.app (Requests.callback "good-code") Sample.start
  = (Redirect 302 "/lists",
     mkWorld 0
       [EvExchangeOIDCToken "good-code" "abc";
        EvGetUsers 0 "" "alice@example.com";
        EvUpdateUserLogin 1 "https://img.example.com/a.png";
        EvSetSession (expanded Sample.app (scanUser Sample.alice)) "id-token"]).
Proof.
  destruct (handleOIDCFinish_success_run Sample.app (Requests.callback "good-code")
              Sample.start "abc" "id-token"
              (mkClaims "Alice@Example.com" "https://img.example.com/a.png")
              Sample.alice [] eq_refl ltac:(discriminate) eq_refl eq_refl
              eq_refl eq_refl) as [Hrun _].
  rewrite Hrun. reflexivity.
Defined.

(** ** The operations that write *)

Section WriteRuns.
Variable app : App.
Variable db : Writes.

Lemma GetUser_returns (id : Z) (username email : string) (w : world) :
  ∃ user err, fst (Core.GetUser app id username email w) = Returns (user, err).
Proof.
  unfold Core.GetUser, bind.
  destruct (Core.getUsers app id username (strings_ToLower app email) w)
    as [[out [e|]] w'] eqn:Hrun.
  - eexists _, _. reflexivity.
  - pose proof (getUsers_success_nonempty app _ _ _ _ _ _ Hrun) as Hne.
    destruct out as [|u rest]; [done|]. eexists _, _. reflexivity.
Qed.


(** Fetching by id inside the larger world. *)
Lemma fetchByID_run (id : Z) (cw : coreWorld) :
  ∃ user err logs,
    CoreWrites.fetchByID app id cw
    = (Returns (user, err),
       mkCoreWorld (coreNow cw)
         (coreLog cw ++
          inl (EvGetUsers id "" (strings_ToLower app "")) :: (inl <$> logs)))
    ∧ Forall isLog logs
    ∧ fst (Core.GetUser app id "" "" (mkWorld (coreNow cw) [])) = Returns (user, err).
Proof.
  unfold CoreWrites.fetchByID, liftM.
  destruct (GetUser_returns id "" "" (mkWorld (coreNow cw) [])) as (user & err & Hret).
  destruct (GetUser_trace app id "" "" (mkWorld (coreNow cw) []))
    as (logs & Hsnd & Hlogs).
  destruct (Core.GetUser app id "" "" (mkWorld (coreNow cw) [])) as [fetched w'].
  cbn [fst snd now trace] in *. subst fetched w'. cbn [now trace List.app].
  exists user, err, logs. auto.
Qed.

End WriteRuns.

(** X23.  An API user is created with generated credentials, whatever was
    passed in: the password stored is a fresh token of 32 characters of the
    alphanumeric dictionary, the e-mail is the username followed by
    [@api], and password login is disabled.  The random source is read
    before the insert. *)
Theorem CreateUser_api_credentials (app : App) (db : Writes) (u : User)
    (cw : coreWorld) (filled : nat → byte) :
  UserType u = UserTypeAPI →
  rand_Read app 32%nat = inl filled →
  ∃ tk rest,
    String.length tk = 32%nat
    ∧ Utils.allInDictionary tk = true
    ∧ coreLog (snd (CoreWrites.CreateUser app db u cw))
      = (coreLog cw ++
         inl (EvRandRead 32) ::
         inr (WriteCreateUser (Username u) false (mkNullString tk true)
                (mkNullString (Username u ++ "@api") true)
                (Name u) (UserType u) (RoleID u) (Status u)) ::
         rest)%list.
Proof.
  intros Htype Hrand.
  destruct (generated_nonce app 32 filled Hrand) as [Hlen Hdict].
  exists (fst (Utils.GenerateRandomString (rand_Read app) 32)).
  unfold CoreWrites.CreateUser. rewrite Htype, String.eqb_refl.
  unfold wbind at 1, liftM, generateRandomString, bind, emit, ret.
  cbn [fst snd now trace fmap list_fmap List.app].
  assert (snd (Utils.GenerateRandomString (rand_Read app) 32) = None) as Hnone
    by (unfold Utils.GenerateRandomString; rewrite Hrand; reflexivity).
  destruct (Utils.GenerateRandomString (rand_Read app) 32) as [tk err].
  cbn [fst snd] in *. subst err.
  unfold CoreWrites.insertUser, wbind, executed. cbn [coreNow coreLog].
  cbn [Username PasswordLogin Password Email Name UserType RoleID Status
       CoreWrites.asAPIUser].
  destruct (q_CreateUser db _ _ _ _ _ _ _ _) as [id|err].
  - destruct (fetchByID_run app id
                (mkCoreWorld (coreNow cw)
                   ((coreLog cw ++ [inl (EvRandRead 32)]) ++
                    [inr (WriteCreateUser (Username u) false (mkNullString tk true)
                            (mkNullString (Username u ++ "@api") true)
                            (Name u) (UserType u) (RoleID u) (Status u))])))
      as (user & ferr & logs & -> & _).
    eexists. split; [exact Hlen|]. split; [exact Hdict|]. cbn [snd coreLog].
    rewrite <- !app_assoc, ?Htype. cbn [List.app]. reflexivity.
  - exists []. split; [exact Hlen|]. split; [exact Hdict|]. unfold wret.
    cbn [snd coreLog]. rewrite <- !app_assoc, ?Htype. cbn [List.app]. reflexivity.
Qed.

Lemma CreateUser_api_credentials_witness :
  ∃ rest,
    coreLog (snd (CoreWrites.CreateUser Sample.app SampleWrites.db
                    (SampleWrites.newUser "bot" UserTypeAPI) SampleWrites.start))
    = inl (EvRandRead 32) ::
      inr (WriteCreateUser "bot" false
             (mkNullString "BmNyZAlEpQ1cDoHsT4fGrKvW7iJuNyZA" true)
             (mkNullString "bot@api" true) "bot" "api" 1 "enabled") ::
      rest.
Proof.
  destruct (CreateUser_api_credentials Sample.app SampleWrites.db
              (SampleWrites.newUser "bot" UserTypeAPI) SampleWrites.start
              _ eq_refl eq_refl) as (tk & rest & _ & _ & Hlog).
  eexists. vm_compute. reflexivity.
Defined.

(** X24.  When the random source fails, an API user is not created: the
    error of the source is returned as it is with the zero user, and no
    statement is executed against the store. *)
Theorem CreateUser_api_without_token (app : App) (db : Writes) (u : User)
    (cw : coreWorld) (err : error) :
  UserType u = UserTypeAPI →
  rand_Read app 32%nat = inr err →
  CoreWrites.CreateUser app db u cw
  = (Returns (userZero, Some err),
     mkCoreWorld (coreNow cw) (coreLog cw ++ [inl (EvRandRead 32)])).
Proof.
  intros Htype Hrand. unfold CoreWrites.CreateUser.
  rewrite Htype, String.eqb_refl.
  unfold wbind, liftM, generateRandomString, Utils.GenerateRandomString,
    bind, emit, ret, wret.
  rewrite Hrand. reflexivity.
Qed.

Lemma CreateUser_api_without_token_witness :
  CoreWrites.CreateUser Sample.appNoEntropy SampleWrites.db
    (SampleWrites.newUser "bot" UserTypeAPI) SampleWrites.start
  = (Returns (userZero, Some (ErrorString "entropy source unavailable")),
     mkCoreWorld 0 [inl (EvRandRead 32)]).
Proof.
  exact (CreateUser_api_without_token Sample.appNoEntropy SampleWrites.db
           (SampleWrites.newUser "bot" UserTypeAPI) SampleWrites.start
           (ErrorString "entropy source unavailable") eq_refl eq_refl).
Defined.

Section WriteResults.
Variable app : App.
Variable db : Writes.




End WriteResults.





(** X27.  [DeleteUsers] executes one statement with the ids it was given
    and succeeds exactly when the statement ran, its count of affected rows
    could be read and that count is not zero; a failing statement is an
    InternalServerError (500), no affected row or an unreadable count a
    BadRequest (400). *)
Theorem DeleteUsers_results (app : App) (db : Writes) (ids : list Z) (cw : coreWorld) :
  snd (CoreWrites.DeleteUsers app db ids cw)
  = mkCoreWorld (coreNow cw) (coreLog cw ++ [inr (WriteDeleteUsers ids)])
  ∧ (fst (CoreWrites.DeleteUsers app db ids cw) = None
     ↔ ∃ res, q_DeleteUsers db ids = inl res
              ∧ rowsAffectedErr res = None ∧ rowsAffected res ≠ 0)
  ∧ (∀ e, fst (CoreWrites.DeleteUsers app db ids cw) = Some e →
          ∃ message,
            (e = HTTPError StatusInternalServerError message
             ∧ ∃ err, q_DeleteUsers db ids = inr err)
            ∨ (e = HTTPError StatusBadRequest message
               ∧ ∃ res, q_DeleteUsers db ids = inl res)).
Proof.
  unfold CoreWrites.DeleteUsers, wbind, executed, wret.
  destruct (q_DeleteUsers db ids) as [res|err].
  - destruct (rowsAffectedErr res) as [raErr|] eqn:Herr.
    + cbn [fst snd]. split; [reflexivity|]. split.
      * split; [discriminate|]. intros (res' & Hres & Hnone & _).
        injection Hres as <-. congruence.
      * intros e He. injection He as <-. unfold CoreWrites.needSuper. eauto 6.
    + destruct (Z.eqb_spec (rowsAffected res) 0) as [Hzero|Hrows]; cbn [fst snd].
      * split; [reflexivity|]. split.
        -- split; [discriminate|]. intros (res' & Hres & _ & Hrows).
           injection Hres as <-. done.
        -- intros e He. injection He as <-. unfold CoreWrites.needSuper. eauto 6.
      * split; [reflexivity|]. split.
        -- split; [eauto|reflexivity].
        -- discriminate.
  - cbn [fst snd]. split; [reflexivity|]. split.
    + split; [discriminate|]. intros (res & Hres & _). discriminate Hres.
    + intros e He. injection He as <-. unfold CoreWrites.errorDeletingUser. eauto 6.
Qed.

Lemma DeleteUsers_results_witness :
  CoreWrites.DeleteUsers Sample.app SampleWrites.db [2; 3] SampleWrites.start
  = (None, mkCoreWorld 0 [inr (WriteDeleteUsers [2; 3])])
  ∧ fst (CoreWrites.DeleteUsers Sample.app SampleWrites.dbNoMatch [] SampleWrites.start)
    = Some (HTTPError 400 "users.needSuper").
Proof.
  destruct (DeleteUsers_results Sample.app SampleWrites.db [2; 3] SampleWrites.start)
    as (Hworld & Hnone & _).
  split; [|reflexivity].
  rewrite (surjective_pairing (CoreWrites.DeleteUsers _ _ _ _)), Hworld.
  rewrite (proj2 Hnone); [reflexivity|].
  exists (mkSqlResult 1 None). repeat split. discriminate.
Defined.
